(** * Atmel SAM3/SAM4/SAMx7x flash driver (src/target/sam3x.c)

    A shallow embedding of the Black Magic Debug SAM3X target driver:
    chip identification, flash/RAM region registration, the EEFC command
    sequencer, the erase and write operations and the GPNVM monitor
    commands, followed by the properties of the driver that the design
    document states. *)

From Stdlib Require Import ZArith List String Ascii Bool Lia DecimalString.
Import ListNotations.
Open Scope Z_scope.

(** ** Machine integers

    C integers are modelled as [Z]; every conversion the C code performs
    (assignment to a narrower type, unsigned wrap-around) is written out. *)

Definition u8 (x : Z) : Z := x mod 2 ^ 8.
Definition u16 (x : Z) : Z := x mod 2 ^ 16.
Definition u32 (x : Z) : Z := x mod 2 ^ 32.

(** Conversion to [int16_t] (two's complement, as GCC defines it). *)
Definition s16 (x : Z) : Z :=
  let y := x mod 2 ^ 16 in
  if y <? 2 ^ 15 then y else y - 2 ^ 16.

(** [MIN] of general.h. *)
Definition MIN (a b : Z) : Z := if a <? b then a else b.

(** ** Register map *)

Definition SAMX7X_EEFC_BASE : Z := 0x400E0C00.
Definition SAM3N_EEFC_BASE : Z := 0x400E0A00.
Definition SAM3X_EEFC_BASE (x : Z) : Z := 0x400E0A00 + x * 0x200.
Definition SAM3U_EEFC_BASE (x : Z) : Z := 0x400E0800 + x * 0x200.
Definition SAM4S_EEFC_BASE (x : Z) : Z := 0x400E0A00 + x * 0x200.
Definition EEFC_FMR (base : Z) : Z := u32 (base + 0x00).
Definition EEFC_FCR (base : Z) : Z := u32 (base + 0x04).
Definition EEFC_FSR (base : Z) : Z := u32 (base + 0x08).
Definition EEFC_FRR (base : Z) : Z := u32 (base + 0x0C).

Definition EEFC_FCR_FKEY : Z := Z.shiftl 0x5A 24.
Definition EEFC_FCR_FCMD_GETD : Z := 0x00.
Definition EEFC_FCR_FCMD_WP : Z := 0x01.
Definition EEFC_FCR_FCMD_WPL : Z := 0x02.
Definition EEFC_FCR_FCMD_EWP : Z := 0x03.
Definition EEFC_FCR_FCMD_EWPL : Z := 0x04.
Definition EEFC_FCR_FCMD_EA : Z := 0x05.
Definition EEFC_FCR_FCMD_EPA : Z := 0x07.
Definition EEFC_FCR_FCMD_SLB : Z := 0x08.
Definition EEFC_FCR_FCMD_CLB : Z := 0x09.
Definition EEFC_FCR_FCMD_GLB : Z := 0x0A.
Definition EEFC_FCR_FCMD_SGPB : Z := 0x0B.
Definition EEFC_FCR_FCMD_CGPB : Z := 0x0C.
Definition EEFC_FCR_FCMD_GGPB : Z := 0x0D.
Definition EEFC_FCR_FCMD_STUI : Z := 0x0E.
Definition EEFC_FCR_FCMD_SPUI : Z := 0x0F.

Definition EEFC_FSR_FRDY : Z := Z.shiftl 1 0.
Definition EEFC_FSR_FCMDE : Z := Z.shiftl 1 1.
Definition EEFC_FSR_FLOCKE : Z := Z.shiftl 1 2.
Definition EEFC_FSR_ERROR : Z := Z.lor EEFC_FSR_FCMDE EEFC_FSR_FLOCKE.

Definition SAM3X_CHIPID_CIDR : Z := 0x400E0940.
Definition SAM34NSU_CHIPID_CIDR : Z := 0x400E0740.
Definition SAMX_CHIPID_EXID : Z := SAM3X_CHIPID_CIDR + 0x4.

Definition CHIPID_CIDR_VERSION_MASK : Z := Z.shiftl 0x1F 0.

Definition CHIPID_CIDR_EPROC_OFFSET : Z := 5.
Definition CHIPID_CIDR_EPROC_MASK : Z := Z.shiftl 0x7 CHIPID_CIDR_EPROC_OFFSET.
Definition CHIPID_CIDR_EPROC_CM7 : Z := Z.shiftl 0x0 CHIPID_CIDR_EPROC_OFFSET.
Definition CHIPID_CIDR_EPROC_CM3 : Z := Z.shiftl 0x3 CHIPID_CIDR_EPROC_OFFSET.
Definition CHIPID_CIDR_EPROC_CM4 : Z := Z.shiftl 0x7 CHIPID_CIDR_EPROC_OFFSET.

Definition CHIPID_CIDR_NVPSIZ_OFFSET : Z := 8.
Definition CHIPID_CIDR_NVPSIZ_MASK : Z := Z.shiftl 0xF CHIPID_CIDR_NVPSIZ_OFFSET.
Definition CHIPID_CIDR_NVPSIZ_8K : Z := Z.shiftl 0x1 CHIPID_CIDR_NVPSIZ_OFFSET.
Definition CHIPID_CIDR_NVPSIZ_16K : Z := Z.shiftl 0x2 CHIPID_CIDR_NVPSIZ_OFFSET.
Definition CHIPID_CIDR_NVPSIZ_32K : Z := Z.shiftl 0x3 CHIPID_CIDR_NVPSIZ_OFFSET.
Definition CHIPID_CIDR_NVPSIZ_64K : Z := Z.shiftl 0x5 CHIPID_CIDR_NVPSIZ_OFFSET.
Definition CHIPID_CIDR_NVPSIZ_128K : Z := Z.shiftl 0x7 CHIPID_CIDR_NVPSIZ_OFFSET.
Definition CHIPID_CIDR_NVPSIZ_256K : Z := Z.shiftl 0x9 CHIPID_CIDR_NVPSIZ_OFFSET.
Definition CHIPID_CIDR_NVPSIZ_512K : Z := Z.shiftl 0xA CHIPID_CIDR_NVPSIZ_OFFSET.
Definition CHIPID_CIDR_NVPSIZ_1024K : Z := Z.shiftl 0xC CHIPID_CIDR_NVPSIZ_OFFSET.
Definition CHIPID_CIDR_NVPSIZ_2048K : Z := Z.shiftl 0xE CHIPID_CIDR_NVPSIZ_OFFSET.

Definition CHIPID_CIDR_SRAMSIZ_OFFSET : Z := 16.
Definition CHIPID_CIDR_SRAMSIZ_MASK : Z := Z.shiftl 0xF CHIPID_CIDR_SRAMSIZ_OFFSET.
Definition CHIPID_CIDR_SRAMSIZ_384K : Z := Z.shiftl 0x2 CHIPID_CIDR_SRAMSIZ_OFFSET.
Definition CHIPID_CIDR_SRAMSIZ_256K : Z := Z.shiftl 0xD CHIPID_CIDR_SRAMSIZ_OFFSET.

Definition CHIPID_CIDR_ARCH_OFFSET : Z := 20.
Definition CHIPID_CIDR_ARCH_MASK : Z := Z.shiftl 0xFF CHIPID_CIDR_ARCH_OFFSET.
Definition CHIPID_CIDR_ARCH_SAME70 : Z := Z.shiftl 0x10 CHIPID_CIDR_ARCH_OFFSET.
Definition CHIPID_CIDR_ARCH_SAMS70 : Z := Z.shiftl 0x11 CHIPID_CIDR_ARCH_OFFSET.
Definition CHIPID_CIDR_ARCH_SAMV71 : Z := Z.shiftl 0x12 CHIPID_CIDR_ARCH_OFFSET.
Definition CHIPID_CIDR_ARCH_SAMV70 : Z := Z.shiftl 0x13 CHIPID_CIDR_ARCH_OFFSET.
Definition CHIPID_CIDR_ARCH_SAM3UxC : Z := Z.shiftl 0x80 CHIPID_CIDR_ARCH_OFFSET.
Definition CHIPID_CIDR_ARCH_SAM3UxE : Z := Z.shiftl 0x81 CHIPID_CIDR_ARCH_OFFSET.
Definition CHIPID_CIDR_ARCH_SAM3XxC : Z := Z.shiftl 0x84 CHIPID_CIDR_ARCH_OFFSET.
Definition CHIPID_CIDR_ARCH_SAM3XxE : Z := Z.shiftl 0x85 CHIPID_CIDR_ARCH_OFFSET.
Definition CHIPID_CIDR_ARCH_SAM3XxG : Z := Z.shiftl 0x86 CHIPID_CIDR_ARCH_OFFSET.
Definition CHIPID_CIDR_ARCH_SAM3NxA : Z := Z.shiftl 0x93 CHIPID_CIDR_ARCH_OFFSET.
Definition CHIPID_CIDR_ARCH_SAM3NxB : Z := Z.shiftl 0x94 CHIPID_CIDR_ARCH_OFFSET.
Definition CHIPID_CIDR_ARCH_SAM3NxC : Z := Z.shiftl 0x95 CHIPID_CIDR_ARCH_OFFSET.
Definition CHIPID_CIDR_ARCH_SAM3SxA : Z := Z.shiftl 0x88 CHIPID_CIDR_ARCH_OFFSET.
Definition CHIPID_CIDR_ARCH_SAM3SxB : Z := Z.shiftl 0x89 CHIPID_CIDR_ARCH_OFFSET.
Definition CHIPID_CIDR_ARCH_SAM3SxC : Z := Z.shiftl 0x8A CHIPID_CIDR_ARCH_OFFSET.
Definition CHIPID_CIDR_ARCH_SAM4SxA : Z := Z.shiftl 0x88 CHIPID_CIDR_ARCH_OFFSET.
Definition CHIPID_CIDR_ARCH_SAM4SxB : Z := Z.shiftl 0x89 CHIPID_CIDR_ARCH_OFFSET.
Definition CHIPID_CIDR_ARCH_SAM4SxC : Z := Z.shiftl 0x8A CHIPID_CIDR_ARCH_OFFSET.
Definition CHIPID_CIDR_ARCH_SAM4SDB : Z := Z.shiftl 0x99 CHIPID_CIDR_ARCH_OFFSET.
Definition CHIPID_CIDR_ARCH_SAM4SDC : Z := Z.shiftl 0x9A CHIPID_CIDR_ARCH_OFFSET.

Definition CHIPID_CIDR_NVPTYP_OFFSET : Z := 28.
Definition CHIPID_CIDR_NVPTYP_MASK : Z := Z.shiftl 0x7 CHIPID_CIDR_NVPTYP_OFFSET.
Definition CHIPID_CIDR_NVPTYP_FLASH : Z := Z.shiftl 0x2 CHIPID_CIDR_NVPTYP_OFFSET.
Definition CHIPID_CIDR_NVPTYP_ROM_FLASH : Z := Z.shiftl 0x3 CHIPID_CIDR_NVPTYP_OFFSET.

Definition CHIPID_CIDR_EXT : Z := Z.shiftl 0x01 31.

Definition CHIPID_EXID_SAMX7X_PINS_OFFSET : Z := 0.
Definition CHIPID_EXID_SAMX7X_PINS_MASK : Z := Z.shiftl 0x3 CHIPID_EXID_SAMX7X_PINS_OFFSET.
Definition CHIPID_EXID_SAMX7X_PINS_Q : Z := Z.shiftl 0x2 CHIPID_EXID_SAMX7X_PINS_OFFSET.
Definition CHIPID_EXID_SAMX7X_PINS_N : Z := Z.shiftl 0x1 CHIPID_EXID_SAMX7X_PINS_OFFSET.
Definition CHIPID_EXID_SAMX7X_PINS_J : Z := Z.shiftl 0x0 CHIPID_EXID_SAMX7X_PINS_OFFSET.

Definition SAM3_PAGE_SIZE : Z := 256.
Definition SAM4_PAGE_SIZE : Z := 512.

(** ** Data model *)

(** The two erase routines and the write routine a region can point to
    (the function pointers [f->erase] and [f->write]). *)
Inductive erase_fn : Type := erase_sam3 | erase_sam4.
Inductive write_fn : Type := write_sam3x.

(** [struct target_flash], the fields the driver fills in. *)
Record target_flash : Type := mk_target_flash {
  f_start : Z;
  f_length : Z;
  f_blocksize : Z;
  f_buf_size : Z;
  f_erase : erase_fn;
  f_write : write_fn
}.

(** [struct sam_flash]. *)
Record sam_flash : Type := mk_sam_flash {
  f : target_flash;
  eefc_base : Z;
  write_cmd : Z
}.

Record target_ram : Type := mk_target_ram {
  ram_start : Z;
  ram_length : Z
}.

Inductive cmd_handler : Type := handler_gpnvm_get | handler_gpnvm_set.

(** [struct command_s]. *)
Record command_s : Type := mk_command {
  cmd : string;
  handler : cmd_handler;
  help : string
}.

(** [struct sam_priv_s]. *)
Record sam_priv_s : Type := mk_sam_priv {
  sam_variant_string : string
}.

(** The target session: label, regions in registration order, command
    tables and the driver's private storage. *)
Record target : Type := mk_target {
  driver : string;
  ram : list target_ram;
  flash : list sam_flash;
  commands : list (string * list command_s);
  target_storage : option sam_priv_s
}.

(** [struct samx7x_descr]. *)
Record samx7x_descr : Type := mk_descr {
  product_code : ascii;
  product_id : Z;
  pins : ascii;
  ram_size : Z;
  flash_size : Z;
  density : Z;
  revision : ascii
}.

(** ** The outside world

    Everything the driver does to its collaborators is an [event]; the
    [trace] of a run lists them oldest first. *)
Inductive event : Type :=
| ev_read32 (addr val : Z)
| ev_write32 (addr val : Z)
| ev_write (dest : Z) (src : list Z) (len : Z)
| ev_check_error (e : bool)
| ev_calloc (ok : bool)
| ev_debug_warn (fmt func : string)
| ev_debug_info (fmt func : string) (args : list Z)
| ev_tc_printf (fmt : string) (args : list Z).

(** Events that go over the debug link to the target. *)
Definition hw_access (e : event) : bool :=
  match e with
  | ev_read32 _ _ | ev_write32 _ _ | ev_write _ _ _ | ev_check_error _ => true
  | _ => false
  end.

(** What the world answers: the value of the [n]-th 32-bit read (by
    address), the outcome of the [n]-th transport-error query and of the
    [n]-th heap allocation. *)
Record oracle : Type := mk_oracle {
  mem32 : nat -> Z -> Z;
  link_error : nat -> bool;
  heap_ok : nat -> bool
}.

Record world : Type := mk_world {
  tgt : target;
  trace : list event;
  reads : nat;
  checks : nat;
  allocs : nat
}.

(** ** A state monad with divergence

    [None] is a run that is still going when the fuel of a loop is used
    up; the world it carries is the world reached so far. *)
Definition M (A : Type) : Type := world -> option A * world.

Definition ret {A : Type} (a : A) : M A := fun w => (Some a, w).

Definition bind {A B : Type} (m : M A) (k : A -> M B) : M B :=
  fun w => match m w with
           | (Some a, w') => k a w'
           | (None, w') => (None, w')
           end.

Definition out_of_fuel {A : Type} : M A := fun w => (None, w).

Notation "x <- c1 ;; c2" := (bind c1 (fun x => c2))
  (at level 61, c1 at next level, right associativity).
Notation "c1 ;; c2" := (bind c1 (fun _ => c2))
  (at level 61, right associativity).

Definition emit (e : event) (w : world) : world :=
  mk_world (tgt w) (trace w ++ [e]) (reads w) (checks w) (allocs w).

Definition set_tgt (t : target) (w : world) : world :=
  mk_world t (trace w) (reads w) (checks w) (allocs w).

(** ** Console and formatting helpers *)

Definition LF : string := String (ascii_of_nat 10) EmptyString.

(** The characters of [s] up to the first NUL: what a C reader of the
    buffer sees. *)
Fixpoint c_str (s : string) : string :=
  match s with
  | EmptyString => EmptyString
  | String c s' => if Ascii.eqb c zero then EmptyString else String c (c_str s')
  end.

(** [%d] and [%02d] of printf. *)
Definition fmt_d (z : Z) : string := NilZero.string_of_int (Z.to_int z).

Definition fmt_02d (z : Z) : string :=
  let s := fmt_d z in
  if (String.length s <? 2)%nat then String "0" s else s.

Definition fmt_c (c : ascii) : string := String c EmptyString.

Section Driver.

(** The world's answers, and [atol] of the C library. *)
Variable env : oracle.
Variable atol : string -> Z.

(** ** Collaborators of the driver *)

(** Modelled from the spec: [target_mem_read32] (target.c), the external
    [read32(addr) -> u32] primitive; a blocking round trip whose value the
    device decides. *)
Definition target_mem_read32 (addr : Z) : M Z :=
  fun w =>
    let v := u32 (mem32 env (reads w) addr) in
    (Some v, mk_world (tgt w) (trace w ++ [ev_read32 addr v])
                      (S (reads w)) (checks w) (allocs w)).

(** Modelled from the spec: [target_mem_write32] (target.c), the external
    [write32(addr, value)] primitive. *)
Definition target_mem_write32 (addr val : Z) : M unit :=
  fun w => (Some tt, emit (ev_write32 addr val) w).

(** Modelled from the spec: [target_mem_write] (target.c), the external
    bulk [write(addr, buffer, length)] primitive. *)
Definition target_mem_write (dest : Z) (src : list Z) (len : Z) : M unit :=
  fun w => (Some tt, emit (ev_write dest src len) w).

(** Modelled from the spec: [target_check_error] (target.c), the external
    [transport_error() -> bool] signal. *)
Definition target_check_error : M bool :=
  fun w =>
    let e := link_error env (checks w) in
    (Some e, mk_world (tgt w) (trace w ++ [ev_check_error e])
                      (reads w) (S (checks w)) (allocs w)).

(** Modelled from the spec: [target_add_flash] (target.c),
    [add_flash_region(target, region)], append-only. *)
Definition target_add_flash (sf : sam_flash) : M unit :=
  fun w =>
    let t := tgt w in
    (Some tt, set_tgt (mk_target (driver t) (ram t) (flash t ++ [sf])
                                 (commands t) (target_storage t)) w).

(** Modelled from the spec: [target_add_ram] (target.c),
    [add_ram_region(target, base, length)], append-only. *)
Definition target_add_ram (start len : Z) : M unit :=
  fun w =>
    let t := tgt w in
    (Some tt, set_tgt (mk_target (driver t) (ram t ++ [mk_target_ram start len])
                                 (flash t) (commands t) (target_storage t)) w).

(** Modelled from the spec: [target_add_commands] (target.c),
    [add_commands(target, table, family_label)]. *)
Definition target_add_commands (table : list command_s) (name : string) : M unit :=
  fun w =>
    let t := tgt w in
    (Some tt, set_tgt (mk_target (driver t) (ram t) (flash t)
                                 (commands t ++ [(name, table)])
                                 (target_storage t)) w).

(** Modelled from the spec: [tc_printf] (target.c), the text output sink of
    the console dispatcher. *)
Definition tc_printf (fmt : string) (args : list Z) : M unit :=
  fun w => (Some tt, emit (ev_tc_printf fmt args) w).

(** Modelled from the spec: [DEBUG_WARN] (general.h), the diagnostic
    channel. *)
Definition DEBUG_WARN (fmt func : string) : M unit :=
  fun w => (Some tt, emit (ev_debug_warn fmt func) w).

(** Modelled from the spec: [DEBUG_INFO] (general.h), the diagnostic
    channel. *)
Definition DEBUG_INFO (fmt func : string) (args : list Z) : M unit :=
  fun w => (Some tt, emit (ev_debug_info fmt func args) w).

(** [calloc] of the C library: [true] when the block was obtained. *)
Definition calloc : M bool :=
  fun w =>
    let ok := heap_ok env (allocs w) in
    (Some ok, mk_world (tgt w) (trace w ++ [ev_calloc ok])
                       (reads w) (checks w) (S (allocs w))).

(** [t->driver = s]. *)
Definition set_driver (s : string) : M unit :=
  fun w =>
    let t := tgt w in
    (Some tt, set_tgt (mk_target s (ram t) (flash t) (commands t)
                                 (target_storage t)) w).

(** [t->target_storage = p]. *)
Definition set_target_storage (p : sam_priv_s) : M unit :=
  fun w =>
    let t := tgt w in
    (Some tt, set_tgt (mk_target (driver t) (ram t) (flash t) (commands t)
                                 (Some p)) w).

(** Reading a field through [t]. *)
Definition get_target : M target := fun w => (Some (tgt w), w).

(** ** The driver *)

Definition sam3x_cmd_list : list command_s :=
  [ mk_command "gpnvm_get" handler_gpnvm_get "Get GPVNM value";
    mk_command "gpnvm_set" handler_gpnvm_set "Set GPVNM bit" ].

Definition sam3_add_flash (eefc_base addr length : Z) : M unit :=
  sf <- calloc ;;
  if negb sf then
    DEBUG_WARN ("calloc: failed in %s" ++ LF) "sam3_add_flash"
  else
    target_add_flash
      (mk_sam_flash
         (mk_target_flash addr length SAM3_PAGE_SIZE SAM3_PAGE_SIZE
                          erase_sam3 write_sam3x)
         eefc_base EEFC_FCR_FCMD_EWP).

Definition sam4_add_flash (eefc_base addr length : Z) : M unit :=
  sf <- calloc ;;
  if negb sf then
    DEBUG_WARN ("calloc: failed in %s" ++ LF) "sam4_add_flash"
  else
    target_add_flash
      (mk_sam_flash
         (mk_target_flash addr length (SAM4_PAGE_SIZE * 8) SAM4_PAGE_SIZE
                          erase_sam4 write_sam3x)
         eefc_base EEFC_FCR_FCMD_WP).

Definition sam_flash_size (cidr : Z) : Z :=
  let x := Z.land cidr CHIPID_CIDR_NVPSIZ_MASK in
  if x =? CHIPID_CIDR_NVPSIZ_8K then 0x2000
  else if x =? CHIPID_CIDR_NVPSIZ_16K then 0x4000
  else if x =? CHIPID_CIDR_NVPSIZ_32K then 0x8000
  else if x =? CHIPID_CIDR_NVPSIZ_64K then 0x10000
  else if x =? CHIPID_CIDR_NVPSIZ_128K then 0x20000
  else if x =? CHIPID_CIDR_NVPSIZ_256K then 0x40000
  else if x =? CHIPID_CIDR_NVPSIZ_512K then 0x80000
  else if x =? CHIPID_CIDR_NVPSIZ_1024K then 0x100000
  else if x =? CHIPID_CIDR_NVPSIZ_2048K then 0x200000
  else 0.

Definition sam_sram_size (cidr : Z) : Z :=
  let x := Z.land cidr CHIPID_CIDR_SRAMSIZ_MASK in
  if x =? CHIPID_CIDR_SRAMSIZ_256K then 0x40000
  else if x =? CHIPID_CIDR_SRAMSIZ_384K then 0x60000
  else 0.

(** A [switch] with several [case] labels sharing one body. *)
Definition in_cases (x : Z) (labels : list Z) : bool :=
  existsb (Z.eqb x) labels.

Definition samx7x_parse_id (cidr exid : Z) : samx7x_descr :=
  let arch := Z.land cidr CHIPID_CIDR_ARCH_MASK in
  let '(product_code, product_id) :=
    if arch =? CHIPID_CIDR_ARCH_SAME70 then ("E"%char, 70)
    else if arch =? CHIPID_CIDR_ARCH_SAMS70 then ("S"%char, 70)
    else if arch =? CHIPID_CIDR_ARCH_SAMV71 then ("V"%char, 71)
    else if arch =? CHIPID_CIDR_ARCH_SAMV70 then ("V"%char, 70)
    else (zero, 0) in
  let version := Z.land exid CHIPID_CIDR_VERSION_MASK in
  let revision :=
    if version =? 0 then "A"%char
    else if version =? 1 then "B"%char
    else "_"%char in
  let p := Z.land exid CHIPID_EXID_SAMX7X_PINS_MASK in
  let pins :=
    if p =? CHIPID_EXID_SAMX7X_PINS_Q then "Q"%char
    else if p =? CHIPID_EXID_SAMX7X_PINS_N then "N"%char
    else if p =? CHIPID_EXID_SAMX7X_PINS_J then "J"%char
    else zero in
  let ram_size := sam_sram_size cidr in
  let flash_size := sam_flash_size cidr in
  let density :=
    if flash_size =? 0x200000 then 21
    else if flash_size =? 0x100000 then 20
    else if flash_size =? 0x80000 then 19
    else 0 in
  mk_descr product_code product_id pins ram_size flash_size density revision.

(** [sprintf(buf, "SAM%c%02d%c%d%c", ...)], read back as a C string. *)
Definition sprintf_variant (descr : samx7x_descr) : string :=
  c_str ("SAM" ++ fmt_c (product_code descr) ++ fmt_02d (product_id descr)
         ++ fmt_c (pins descr) ++ fmt_d (density descr)
         ++ fmt_c (revision descr)).

Definition samx7x_probe : M bool :=
  cidr <- target_mem_read32 SAM3X_CHIPID_CIDR ;;
  exid <- (if Z.land cidr CHIPID_CIDR_EXT =? 0 then ret 0
           else target_mem_read32 SAMX_CHIPID_EXID) ;;
  if negb (in_cases (Z.land cidr CHIPID_CIDR_ARCH_MASK)
             [CHIPID_CIDR_ARCH_SAME70; CHIPID_CIDR_ARCH_SAMS70;
              CHIPID_CIDR_ARCH_SAMV71; CHIPID_CIDR_ARCH_SAMV70])
  then ret false
  else
    let descr := samx7x_parse_id cidr exid in
    target_add_ram 0x20400000 (ram_size descr) ;;
    sam4_add_flash SAMX7X_EEFC_BASE 0x00400000 (flash_size descr) ;;
    target_add_commands sam3x_cmd_list "SAMX7X" ;;
    priv_storage <- calloc ;;
    if negb priv_storage then
      DEBUG_WARN ("calloc: failed in %s" ++ LF) "samx7x_probe" ;;
      ret false
    else
      let variant := sprintf_variant descr in
      set_target_storage (mk_sam_priv variant) ;;
      set_driver variant ;;
      ret true.

Definition sam3x_probe : M bool :=
  cidr <- target_mem_read32 SAM3X_CHIPID_CIDR ;;
  let size := sam_flash_size cidr in
  if in_cases (Z.land cidr (Z.lor CHIPID_CIDR_ARCH_MASK CHIPID_CIDR_EPROC_MASK))
       [Z.lor CHIPID_CIDR_ARCH_SAM3XxC CHIPID_CIDR_EPROC_CM3;
        Z.lor CHIPID_CIDR_ARCH_SAM3XxE CHIPID_CIDR_EPROC_CM3;
        Z.lor CHIPID_CIDR_ARCH_SAM3XxG CHIPID_CIDR_EPROC_CM3]
  then
    set_driver "Atmel SAM3X" ;;
    target_add_ram 0x20000000 0x200000 ;;
    sam3_add_flash (SAM3X_EEFC_BASE 0) 0x80000 (size / 2) ;;
    sam3_add_flash (SAM3X_EEFC_BASE 1) (0x80000 + size / 2) (size / 2) ;;
    target_add_commands sam3x_cmd_list "SAM3X" ;;
    ret true
  else
    cidr <- target_mem_read32 SAM34NSU_CHIPID_CIDR ;;
    let size := sam_flash_size cidr in
    let id := Z.land cidr (Z.lor CHIPID_CIDR_ARCH_MASK CHIPID_CIDR_EPROC_MASK) in
    if in_cases id
         [Z.lor CHIPID_CIDR_ARCH_SAM3NxA CHIPID_CIDR_EPROC_CM3;
          Z.lor CHIPID_CIDR_ARCH_SAM3NxB CHIPID_CIDR_EPROC_CM3;
          Z.lor CHIPID_CIDR_ARCH_SAM3NxC CHIPID_CIDR_EPROC_CM3;
          Z.lor CHIPID_CIDR_ARCH_SAM3SxA CHIPID_CIDR_EPROC_CM3;
          Z.lor CHIPID_CIDR_ARCH_SAM3SxB CHIPID_CIDR_EPROC_CM3;
          Z.lor CHIPID_CIDR_ARCH_SAM3SxC CHIPID_CIDR_EPROC_CM3]
    then
      set_driver "Atmel SAM3N/S" ;;
      target_add_ram 0x20000000 0x200000 ;;
      let size := sam_flash_size cidr in
      sam3_add_flash SAM3N_EEFC_BASE 0x400000 size ;;
      target_add_commands sam3x_cmd_list "SAM3N/S" ;;
      ret true
    else if in_cases id
         [Z.lor CHIPID_CIDR_ARCH_SAM3UxC CHIPID_CIDR_EPROC_CM3;
          Z.lor CHIPID_CIDR_ARCH_SAM3UxE CHIPID_CIDR_EPROC_CM3]
    then
      set_driver "Atmel SAM3U" ;;
      target_add_ram 0x20000000 0x200000 ;;
      sam3_add_flash (SAM3U_EEFC_BASE 0) 0x80000 (MIN size 0x80000) ;;
      (if size >=? 0x80000 then
         sam3_add_flash (SAM3U_EEFC_BASE 1) 0x100000 0x80000
       else ret tt) ;;
      target_add_commands sam3x_cmd_list "SAM3U" ;;
      ret true
    else if in_cases id
         [Z.lor CHIPID_CIDR_ARCH_SAM4SxA CHIPID_CIDR_EPROC_CM4;
          Z.lor CHIPID_CIDR_ARCH_SAM4SxB CHIPID_CIDR_EPROC_CM4;
          Z.lor CHIPID_CIDR_ARCH_SAM4SxC CHIPID_CIDR_EPROC_CM4;
          Z.lor CHIPID_CIDR_ARCH_SAM4SDB CHIPID_CIDR_EPROC_CM4;
          Z.lor CHIPID_CIDR_ARCH_SAM4SDC CHIPID_CIDR_EPROC_CM4]
    then
      set_driver "Atmel SAM4S" ;;
      target_add_ram 0x20000000 0x400000 ;;
      let size := sam_flash_size cidr in
      (if size <=? 0x80000 then
         sam4_add_flash (SAM4S_EEFC_BASE 0) 0x400000 size
       else
         sam4_add_flash (SAM4S_EEFC_BASE 0) 0x400000 (size / 2) ;;
         sam4_add_flash (SAM4S_EEFC_BASE 1) (0x400000 + size / 2) (size / 2)) ;;
      target_add_commands sam3x_cmd_list "SAM4S" ;;
      ret true
    else ret false.

(** *** The command sequencer *)

(** The polling loop of [sam3x_flash_cmd].  [Some r] is the [return r]
    taken inside the loop, [None] is the loop left because the ready bit
    was read. *)
Fixpoint sam3x_flash_cmd_poll (fuel : nat) (base : Z) : M (option Z) :=
  match fuel with
  | O => out_of_fuel
  | S fuel' =>
      sr <- target_mem_read32 (EEFC_FSR base) ;;
      if negb (Z.land sr EEFC_FSR_FRDY =? 0) then ret None
      else
        e <- target_check_error ;;
        if e then ret (Some (-1))
        else sam3x_flash_cmd_poll fuel' base
  end.

(** The parameters are [uint32_t base, uint8_t cmd, uint16_t arg]: the
    call converts its arguments to these types. *)
Definition sam3x_flash_cmd (fuel : nat) (base cmd arg : Z) : M Z :=
  let base := u32 base in
  let cmd := u8 cmd in
  let arg := u16 arg in
  DEBUG_INFO ("%s: base = 0x%08x cmd = 0x%02X, arg = 0x%06X" ++ LF)
             "sam3x_flash_cmd" [base; cmd; arg] ;;
  target_mem_write32 (EEFC_FCR base)
    (Z.lor (Z.lor EEFC_FCR_FKEY cmd) (u32 (Z.shiftl arg 8))) ;;
  early <- sam3x_flash_cmd_poll fuel base ;;
  match early with
  | Some r => ret r
  | None =>
      sr <- target_mem_read32 (EEFC_FSR base) ;;
      ret (Z.land sr EEFC_FSR_ERROR)
  end.

Definition sam3x_flash_base (t : target) : Z :=
  if String.eqb (driver t) "Atmel SAM3X" then SAM3X_EEFC_BASE 0
  else if String.eqb (driver t) "Atmel SAM3U" then SAM3U_EEFC_BASE 0
  else if String.eqb (driver t) "Atmel SAM4S" then SAM4S_EEFC_BASE 0
  else if String.eqb (driver t) "Atmel SAM3N/S" then SAM3N_EEFC_BASE
  else SAMX7X_EEFC_BASE.

(** *** Erase *)

(** The [while (len)] loop of [sam4_flash_erase]; [n] bounds the number
    of iterations and [fuel] the polls of each command. *)
Fixpoint sam4_flash_erase_loop (n fuel : nat) (sf : sam_flash)
    (base chunk len : Z) : M Z :=
  if len =? 0 then ret 0
  else
    match n with
    | O => out_of_fuel
    | S n' =>
        let arg := s16 (Z.lor chunk 0x1) in
        r <- sam3x_flash_cmd fuel base EEFC_FCR_FCMD_EPA arg ;;
        if negb (r =? 0) then ret (-1)
        else
          let len := if len >? f_blocksize (f sf)
                     then len - f_blocksize (f sf) else 0 in
          sam4_flash_erase_loop n' fuel sf base (u32 (chunk + 8)) len
    end.

Definition sam4_flash_erase (fuel : nat) (sf : sam_flash) (addr len : Z) : M Z :=
  let base := eefc_base sf in
  let offset := u32 (addr - f_start (f sf)) in
  let chunk := offset / SAM4_PAGE_SIZE in
  sam4_flash_erase_loop fuel fuel sf base chunk len.

Definition sam3_flash_erase (sf : sam_flash) (addr len : Z) : M Z :=
  ret 0.

(** *** Write *)

Definition sam3x_flash_write (fuel : nat) (sf : sam_flash) (dest : Z)
    (src : list Z) (len : Z) : M Z :=
  let base := eefc_base sf in
  let chunk := u32 (u32 (dest - f_start (f sf)) / f_buf_size (f sf)) in
  target_mem_write dest src len ;;
  r <- sam3x_flash_cmd fuel base (write_cmd sf) chunk ;;
  if negb (r =? 0) then ret (-1)
  else ret 0.

(** Calls through the function pointers of a region. *)
Definition flash_erase (fuel : nat) (sf : sam_flash) (addr len : Z) : M Z :=
  match f_erase (f sf) with
  | erase_sam3 => sam3_flash_erase sf addr len
  | erase_sam4 => sam4_flash_erase fuel sf addr len
  end.

Definition flash_write (fuel : nat) (sf : sam_flash) (dest : Z)
    (src : list Z) (len : Z) : M Z :=
  match f_write (f sf) with
  | write_sam3x => sam3x_flash_write fuel sf dest src len
  end.

(** *** Monitor commands *)

Definition sam3x_cmd_gpnvm_get (fuel : nat) (argc : Z) (argv : list string)
    : M bool :=
  t <- get_target ;;
  let base := sam3x_flash_base t in
  sam3x_flash_cmd fuel base EEFC_FCR_FCMD_GGPB 0 ;;
  v <- target_mem_read32 (EEFC_FRR base) ;;
  tc_printf ("GPNVM: 0x%08X" ++ LF) [v] ;;
  ret true.

Definition sam3x_cmd_gpnvm_set (fuel : nat) (argc : Z) (argv : list string)
    : M bool :=
  t <- get_target ;;
  let base := sam3x_flash_base t in
  if negb (argc =? 3) then
    tc_printf ("usage: monitor gpnvm_set <bit> <val>" ++ LF) [] ;;
    ret false
  else
    let bit := u32 (atol (nth 1 argv EmptyString)) in
    let cmd := if negb (atol (nth 2 argv EmptyString) =? 0)
               then EEFC_FCR_FCMD_SGPB else EEFC_FCR_FCMD_CGPB in
    sam3x_flash_cmd fuel base cmd bit ;;
    sam3x_cmd_gpnvm_get fuel 0 [] ;;
    ret true.

(** The console dispatcher calling a handler of [sam3x_cmd_list]. *)
Definition run_handler (h : cmd_handler) (fuel : nat) (argc : Z)
    (argv : list string) : M bool :=
  match h with
  | handler_gpnvm_get => sam3x_cmd_gpnvm_get fuel argc argv
  | handler_gpnvm_set => sam3x_cmd_gpnvm_set fuel argc argv
  end.

End Driver.

(** ** Vocabulary of the properties *)

(** The session before any probe, on a link where nothing happened yet. *)
Definition target0 : target := mk_target EmptyString [] [] [] None.
Definition world0 : world := mk_world target0 [] 0 0 0.

(** What the [n]-th read returns when it reads the status register of the
    controller at [base], and whether that value has the ready bit. *)
Definition status (env : oracle) (base : Z) (n : nat) : Z :=
  u32 (mem32 env n (EEFC_FSR (u32 base))).

Definition ready (sr : Z) : bool := negb (Z.land sr EEFC_FSR_FRDY =? 0).

(** The events of [n] polling rounds that found the controller busy and
    the link healthy, starting at read [r]. *)
Fixpoint busy_rounds (env : oracle) (base : Z) (r n : nat) : list event :=
  match n with
  | O => []
  | S n' => ev_read32 (EEFC_FSR (u32 base)) (status env base r)
            :: ev_check_error false :: busy_rounds env base (S r) n'
  end.

(** The command word of the sequencer, and the two events that issue it. *)
Definition command_word (cmd arg : Z) : Z :=
  Z.lor (Z.lor (Z.shiftl 0x5A 24) (u8 cmd)) (Z.shiftl (u16 arg) 8).

Definition issue_events (base cmd arg : Z) : list event :=
  [ev_debug_info ("%s: base = 0x%08x cmd = 0x%02X, arg = 0x%06X" ++ LF)
                 "sam3x_flash_cmd" [u32 base; u8 cmd; u16 arg];
   ev_write32 (EEFC_FCR (u32 base)) (command_word cmd arg)].

(** The 32-bit writes and the bulk writes of a trace. *)
Definition writes32 (evs : list event) : list (Z * Z) :=
  flat_map (fun e => match e with
                     | ev_write32 a v => [(a, v)]
                     | _ => []
                     end) evs.

Definition bulk_writes (evs : list event) : list (Z * list Z * Z) :=
  flat_map (fun e => match e with
                     | ev_write d s l => [(d, s, l)]
                     | _ => []
                     end) evs.

(** *** The erase algorithm in the words of the design document

    The page indices to erase are known up front: one per erase block that
    the length covers, eight pages apart, starting at the first page of
    the range.  One page-erase command is issued per index, in order,
    until one fails. *)
Definition blocks_for (len blocksize : Z) : nat :=
  Z.to_nat ((len + blocksize - 1) / blocksize).

Definition erase_pages (first : Z) (count : nat) : list Z :=
  map (fun i => u32 (first + 8 * Z.of_nat i)) (seq 0 count).

Fixpoint issue_page_erases (env : oracle) (fuel : nat) (base : Z)
    (pages : list Z) : M Z :=
  match pages with
  | [] => ret 0
  | p :: ps =>
      r <- sam3x_flash_cmd env fuel base EEFC_FCR_FCMD_EPA (Z.lor p 0x1) ;;
      if r =? 0 then issue_page_erases env fuel base ps
      else ret (-1)
  end.

(** The events a run added to the trace. *)
Definition new_events (w w' : world) : list event :=
  skipn (List.length (trace w)) (trace w').

(** The controller at [base] answers within [bound] polls: from any
    point of the run, after fewer than [bound] busy rounds on a healthy
    link, the status register reads ready or the transport-error signal is
    set. *)
Definition responsive (env : oracle) (base : Z) (bound : nat) : Prop :=
  forall r c : nat, exists n : nat,
    (n < bound)%nat /\
    (forall k, (k < n)%nat ->
       ready (status env base (r + k)) = false /\
       link_error env (c + k) = false) /\
    (ready (status env base (r + n)) = true \/
     link_error env (c + n) = true).

(** The page or chunk index [sam3x_flash_write] hands to the sequencer. *)
Definition write_chunk (sf : sam_flash) (dest : Z) : Z :=
  u32 (dest - f_start (f sf)) / f_buf_size (f sf).

(** The first page index [sam4_flash_erase] hands to the sequencer. *)
Definition erase_first_page (sf : sam_flash) (addr : Z) : Z :=
  u32 (addr - f_start (f sf)) / SAM4_PAGE_SIZE.

(** "The call returns the sequencer's result directly", as the design
    document words the last step of a write. *)
Definition write_returns_sequencer_result (env : oracle) (fuel : nat)
    (sf : sam_flash) (dest : Z) (src : list Z) (len : Z) (w : world) : Prop :=
  forall (r : Z) (w2 : world),
    sam3x_flash_cmd env fuel (eefc_base sf) (write_cmd sf)
      (write_chunk sf dest) (emit (ev_write dest src len) w) = (Some r, w2) ->
    flash_write env fuel sf dest src len w = (Some r, w2).

(** The world after [gpnvm_get] has read and printed the result register
    of the controller at [base], starting from [w1]. *)
Definition gpnvm_shown (env : oracle) (base : Z) (w1 : world) : world :=
  mk_world (tgt w1)
    (trace w1 ++
       [ev_read32 (EEFC_FRR base) (u32 (mem32 env (reads w1) (EEFC_FRR base)));
        ev_tc_printf ("GPNVM: 0x%08X" ++ LF)
                     [u32 (mem32 env (reads w1) (EEFC_FRR base))]])
    (S (reads w1)) (checks w1) (allocs w1).

(** *** Probing *)

(** The key the legacy line is recognised by: architecture and processor. *)
Definition arch_eproc (cidr : Z) : Z :=
  Z.land cidr (Z.lor CHIPID_CIDR_ARCH_MASK CHIPID_CIDR_EPROC_MASK).

(** The recognition tables: the [case] labels of the three [switch]
    statements of the probes. *)
Inductive family : Type := SAM3X | SAM3NS | SAM3U | SAM4S.

Definition family_table (fam : family) : list Z :=
  match fam with
  | SAM3X =>
      [Z.lor CHIPID_CIDR_ARCH_SAM3XxC CHIPID_CIDR_EPROC_CM3;
       Z.lor CHIPID_CIDR_ARCH_SAM3XxE CHIPID_CIDR_EPROC_CM3;
       Z.lor CHIPID_CIDR_ARCH_SAM3XxG CHIPID_CIDR_EPROC_CM3]
  | SAM3NS =>
      [Z.lor CHIPID_CIDR_ARCH_SAM3NxA CHIPID_CIDR_EPROC_CM3;
       Z.lor CHIPID_CIDR_ARCH_SAM3NxB CHIPID_CIDR_EPROC_CM3;
       Z.lor CHIPID_CIDR_ARCH_SAM3NxC CHIPID_CIDR_EPROC_CM3;
       Z.lor CHIPID_CIDR_ARCH_SAM3SxA CHIPID_CIDR_EPROC_CM3;
       Z.lor CHIPID_CIDR_ARCH_SAM3SxB CHIPID_CIDR_EPROC_CM3;
       Z.lor CHIPID_CIDR_ARCH_SAM3SxC CHIPID_CIDR_EPROC_CM3]
  | SAM3U =>
      [Z.lor CHIPID_CIDR_ARCH_SAM3UxC CHIPID_CIDR_EPROC_CM3;
       Z.lor CHIPID_CIDR_ARCH_SAM3UxE CHIPID_CIDR_EPROC_CM3]
  | SAM4S =>
      [Z.lor CHIPID_CIDR_ARCH_SAM4SxA CHIPID_CIDR_EPROC_CM4;
       Z.lor CHIPID_CIDR_ARCH_SAM4SxB CHIPID_CIDR_EPROC_CM4;
       Z.lor CHIPID_CIDR_ARCH_SAM4SxC CHIPID_CIDR_EPROC_CM4;
       Z.lor CHIPID_CIDR_ARCH_SAM4SDB CHIPID_CIDR_EPROC_CM4;
       Z.lor CHIPID_CIDR_ARCH_SAM4SDC CHIPID_CIDR_EPROC_CM4]
  end.

Definition samx7x_table : list Z :=
  [CHIPID_CIDR_ARCH_SAME70; CHIPID_CIDR_ARCH_SAMS70;
   CHIPID_CIDR_ARCH_SAMV71; CHIPID_CIDR_ARCH_SAMV70].

(** The identification registers as a probe started in [w] reads them:
    the first read is at [SAM3X_CHIPID_CIDR], the second, when there is
    one, at [SAM34NSU_CHIPID_CIDR] ([sam3x_probe]) or at
    [SAMX_CHIPID_EXID] ([samx7x_probe]). *)
Definition cidr_sam3x (env : oracle) (w : world) : Z :=
  u32 (mem32 env (reads w) SAM3X_CHIPID_CIDR).

Definition cidr_sam34nsu (env : oracle) (w : world) : Z :=
  u32 (mem32 env (S (reads w)) SAM34NSU_CHIPID_CIDR).

Definition exid_samx7x (env : oracle) (w : world) : Z :=
  if Z.land (cidr_sam3x env w) CHIPID_CIDR_EXT =? 0 then 0
  else u32 (mem32 env (S (reads w)) SAMX_CHIPID_EXID).

(** The line [sam3x_probe] recognises, and the flash size it decodes. *)
Definition sam3x_probe_family (env : oracle) (w : world) : option family :=
  if in_cases (arch_eproc (cidr_sam3x env w)) (family_table SAM3X)
  then Some SAM3X
  else
    let id := arch_eproc (cidr_sam34nsu env w) in
    if in_cases id (family_table SAM3NS) then Some SAM3NS
    else if in_cases id (family_table SAM3U) then Some SAM3U
    else if in_cases id (family_table SAM4S) then Some SAM4S
    else None.

Definition sam3x_probe_size (env : oracle) (w : world) : Z :=
  if in_cases (arch_eproc (cidr_sam3x env w)) (family_table SAM3X)
  then sam_flash_size (cidr_sam3x env w)
  else sam_flash_size (cidr_sam34nsu env w).

(** The descriptor [samx7x_probe] decodes. *)
Definition samx7x_probe_descr (env : oracle) (w : world) : samx7x_descr :=
  samx7x_parse_id (cidr_sam3x env w) (exid_samx7x env w).

(** What a run registered: the regions and tables appended to the
    session. *)
Definition registered_flash (w w' : world) : list sam_flash :=
  skipn (List.length (flash (tgt w))) (flash (tgt w')).

Definition registered_ram (w w' : world) : list target_ram :=
  skipn (List.length (ram (tgt w))) (ram (tgt w')).

Definition registered_commands (w w' : world)
    : list (string * list command_s) :=
  skipn (List.length (commands (tgt w))) (commands (tgt w')).

(** Base addresses strictly ascending and contiguous: each region starts
    where the one before it ends, at a higher address. *)
Fixpoint ascending_contiguous (l : list sam_flash) : Prop :=
  match l with
  | a :: (b :: _) as tl =>
      f_start (f a) < f_start (f b) /\
      f_start (f b) = f_start (f a) + f_length (f a) /\
      ascending_contiguous tl
  | _ => True
  end.

Definition total_length (l : list sam_flash) : Z :=
  fold_right (fun r acc => f_length (f r) + acc) 0 l.

Definition layout_ok (l : list sam_flash) (size : Z) : Prop :=
  ascending_contiguous l /\ total_length l = size.

(** The region [sam3_add_flash] and [sam4_add_flash] build. *)
Definition sam3_region (eefc_base addr length : Z) : sam_flash :=
  mk_sam_flash
    (mk_target_flash addr length SAM3_PAGE_SIZE SAM3_PAGE_SIZE
                     erase_sam3 write_sam3x)
    eefc_base EEFC_FCR_FCMD_EWP.

Definition sam4_region (eefc_base addr length : Z) : sam_flash :=
  mk_sam_flash
    (mk_target_flash addr length (SAM4_PAGE_SIZE * 8) SAM4_PAGE_SIZE
                     erase_sam4 write_sam3x)
    eefc_base EEFC_FCR_FCMD_WP.

(** The banks [sam3x_probe] asks for on each line, in order. *)
Definition banks (fam : family) (size : Z) : list sam_flash :=
  match fam with
  | SAM3X =>
      [sam3_region (SAM3X_EEFC_BASE 0) 0x80000 (size / 2);
       sam3_region (SAM3X_EEFC_BASE 1) (0x80000 + size / 2) (size / 2)]
  | SAM3NS => [sam3_region SAM3N_EEFC_BASE 0x400000 size]
  | SAM3U =>
      sam3_region (SAM3U_EEFC_BASE 0) 0x80000 (MIN size 0x80000)
      :: (if size >=? 0x80000
          then [sam3_region (SAM3U_EEFC_BASE 1) 0x100000 0x80000]
          else [])
  | SAM4S =>
      if size <=? 0x80000
      then [sam4_region (SAM4S_EEFC_BASE 0) 0x400000 size]
      else [sam4_region (SAM4S_EEFC_BASE 0) 0x400000 (size / 2);
            sam4_region (SAM4S_EEFC_BASE 1) (0x400000 + size / 2) (size / 2)]
  end.

(** Of the banks asked for, those whose allocation succeeded; the
    allocations are numbered from [a]. *)
Fixpoint allocated (env : oracle) (a : nat) (l : list sam_flash)
    : list sam_flash :=
  match l with
  | [] => []
  | r :: rs =>
      (if heap_ok env a then [r] else []) ++ allocated env (S a) rs
  end.

(** The two readings of the design document that the code does not
    follow. *)
Definition probe_layout_claim (env : oracle) (w : world) : Prop :=
  (forall w', sam3x_probe env w = (Some true, w') ->
     layout_ok (registered_flash w w') (sam3x_probe_size env w)) /\
  (forall w', samx7x_probe env w = (Some true, w') ->
     layout_ok (registered_flash w w')
               (flash_size (samx7x_probe_descr env w))).

Definition probe_success_iff_region_claim (env : oracle) (w : world) : Prop :=
  (forall b w', sam3x_probe env w = (Some b, w') ->
     (b = true <-> registered_flash w w' <> [])) /\
  (forall b w', samx7x_probe env w = (Some b, w') ->
     (b = true <-> registered_flash w w' <> [])).

(** When the banks of a line add up to the decoded size: the two-bank
    SAM3X line needs a decoded size other than zero, and the SAM3U line a
    decoded size below 512 KiB or of exactly 1 MiB. *)
Definition banks_add_up (fam : option family) (size : Z) : Prop :=
  match fam with
  | Some SAM3X => size <> 0
  | Some SAM3U => size < 0x80000 \/ size = 0x100000
  | _ => True
  end.

(** ** Example devices

    Identification registers of a SAM3X8E, of a SAM3X with an undefined
    size code, of a SAM3U with the 512 KiB size code, of a SAM4S16C and of
    a SAME70Q21, and a register no probe recognises. *)
Definition CIDR_SAM3X8E : Z := 0x285E0A60.
Definition CIDR_SAM3X_NOSIZE : Z := 0x285E0060.
Definition CIDR_SAM3U_512K : Z := 0x28000A60.
Definition CIDR_SAM4S16C : Z := 0x28AC0CE0.
Definition CIDR_SAME70Q21 : Z := 0xA1020E00.
Definition CIDR_UNKNOWN : Z := 0x00000000.

(** A device that answers [exid] at the extended identification register
    and [cidr] everywhere else, on a healthy link, with allocator [heap]. *)
Definition env_probe (cidr exid : Z) (heap : nat -> bool) : oracle :=
  mk_oracle (fun _ a => if a =? SAMX_CHIPID_EXID then exid else cidr)
            (fun _ => false) heap.

(** A controller whose [n]-th read returns [sr n], on a link whose [n]-th
    error query returns [err n]. *)
Definition env_status (sr : nat -> Z) (err : nat -> bool) : oracle :=
  mk_oracle (fun n _ => sr n) err (fun _ => true).

Definition heap_fine : nat -> bool := fun _ => true.
Definition heap_exhausted : nat -> bool := fun _ => false.
Definition heap_first_only : nat -> bool := fun n => Nat.eqb n 0.
Definition heap_second_only : nat -> bool := fun n => Nat.eqb n 1.

(** A controller that is ready at once and reports no error; one that is
    ready at once with the command-error bit set; one that is busy twice
    and then ready with the command-error bit set; and a link that is lost
    during the third polling round of a controller that stays busy. *)
Definition env_ready : oracle := env_status (fun _ => 1) (fun _ => false).
Definition env_cmd_error : oracle := env_status (fun _ => 3) (fun _ => false).
Definition env_slow_cmd_error : oracle :=
  env_status (fun n => if (n <? 2)%nat then 0 else 3) (fun _ => false).
Definition env_link_lost : oracle :=
  env_status (fun _ => 0) (fun n => Nat.eqb n 2).

(** A 512 KiB bank of a SAM4S at its usual place, and a SAM3 bank. *)
Definition bank_sam4 : sam_flash :=
  sam4_region (SAM4S_EEFC_BASE 0) 0x400000 0x80000.
Definition bank_sam3 : sam_flash :=
  sam3_region (SAM3X_EEFC_BASE 0) 0x80000 0x40000.

(** [atol] on the strings the examples use. *)
Definition atol_digit (s : string) : Z :=
  match s with
  | String c EmptyString => Z.of_nat (nat_of_ascii c) - 48
  | _ => 0
  end.

(** ** Vocabulary of the further properties *)

(** The size tables of the identification register, by 4-bit code. *)
Definition nvpsiz_bytes (code : Z) : Z :=
  match code with
  | 1 => 0x2000
  | 2 => 0x4000
  | 3 => 0x8000
  | 5 => 0x10000
  | 7 => 0x20000
  | 9 => 0x40000
  | 10 => 0x80000
  | 12 => 0x100000
  | 14 => 0x200000
  | _ => 0
  end.

Definition sramsiz_bytes (code : Z) : Z :=
  match code with
  | 2 => 0x60000
  | 13 => 0x40000
  | _ => 0
  end.

(** The characters [sprintf] writes for a descriptor, before the
    terminating NUL, and the size of the buffer [sam_variant_string]
    they go to. *)
Definition variant_chars (descr : samx7x_descr) : string :=
  "SAM" ++ fmt_c (product_code descr) ++ fmt_02d (product_id descr)
  ++ fmt_c (pins descr) ++ fmt_d (density descr)
  ++ fmt_c (revision descr).

Definition SAM_VARIANT_STRING_SIZE : nat := 60.

(** The events a call of the sequencer on the controller at [base] may
    produce: a diagnostic, a write to the command register of that
    controller, reads of its status register and transport-error
    queries. *)
Definition sequencer_event (base : Z) (e : event) : bool :=
  match e with
  | ev_debug_info _ _ _ => true
  | ev_write32 a _ => a =? EEFC_FCR (u32 base)
  | ev_read32 a _ => a =? EEFC_FSR (u32 base)
  | ev_check_error _ => true
  | _ => false
  end.

(** What [sam3x_probe] gives a session on each line: the label, the
    length of the RAM region, the name of the command table and the
    controller of the first bank. *)
Definition family_label (fam : family) : string :=
  match fam with
  | SAM3X => "Atmel SAM3X"
  | SAM3NS => "Atmel SAM3N/S"
  | SAM3U => "Atmel SAM3U"
  | SAM4S => "Atmel SAM4S"
  end.

Definition family_ram_length (fam : family) : Z :=
  match fam with
  | SAM4S => 0x400000
  | _ => 0x200000
  end.

Definition family_command_name (fam : family) : string :=
  match fam with
  | SAM3X => "SAM3X"
  | SAM3NS => "SAM3N/S"
  | SAM3U => "SAM3U"
  | SAM4S => "SAM4S"
  end.

Definition family_eefc_base (fam : family) : Z :=
  match fam with
  | SAM3X => SAM3X_EEFC_BASE 0
  | SAM3NS => SAM3N_EEFC_BASE
  | SAM3U => SAM3U_EEFC_BASE 0
  | SAM4S => SAM4S_EEFC_BASE 0
  end.

(** The events a probe may produce: reads of the identification
    registers, allocations and allocation warnings. *)
Definition probe_event (e : event) : bool :=
  match e with
  | ev_read32 a _ =>
      (a =? SAM3X_CHIPID_CIDR) || (a =? SAM34NSU_CHIPID_CIDR)
      || (a =? SAMX_CHIPID_EXID)
  | ev_calloc _ => true
  | ev_debug_warn _ _ => true
  | _ => false
  end.

(** A region the erase and write routines can work on: a length of at
    most 2 MiB that is a whole number of erase blocks, an erase block
    that is a whole number of write pages, an address range inside the
    32-bit space, and one of the two strategies -- no erase routine with
    the erase-and-write command on 256-byte pages, or the page-erase
    routine with the plain write command on 512-byte pages and
    8-page blocks. *)
Definition region_ok (r : sam_flash) : Prop :=
  0 <= f_length (f r) <= 0x200000 /\
  f_length (f r) mod f_blocksize (f r) = 0 /\
  f_blocksize (f r) mod f_buf_size (f r) = 0 /\
  0 <= f_start (f r) /\
  f_start (f r) + f_length (f r) < 2 ^ 32 /\
  ((f_erase (f r) = erase_sam3 /\ write_cmd r = EEFC_FCR_FCMD_EWP /\
    f_buf_size (f r) = SAM3_PAGE_SIZE /\ f_blocksize (f r) = SAM3_PAGE_SIZE) \/
   (f_erase (f r) = erase_sam4 /\ write_cmd r = EEFC_FCR_FCMD_WP /\
    f_buf_size (f r) = SAM4_PAGE_SIZE /\
    f_blocksize (f r) = SAM4_PAGE_SIZE * 8)).

(** * Properties *)

(** ** Arithmetic of the conversions *)

Lemma u16_s16 (x : Z) : u16 (s16 x) = u16 x.
Proof.
  unfold u16, s16.
  destruct (x mod 2 ^ 16 <? 2 ^ 15).
  - apply Z.mod_mod. lia.
  - replace (x mod 2 ^ 16 - 2 ^ 16) with (x mod 2 ^ 16 + (-1) * 2 ^ 16) by lia.
    rewrite Z.mod_add by lia. apply Z.mod_mod. lia.
Qed.

Lemma u16_range (x : Z) : 0 <= u16 x < 2 ^ 16.
Proof. unfold u16. apply Z.mod_pos_bound. lia. Qed.

Lemma u8_range (x : Z) : 0 <= u8 x < 2 ^ 8.
Proof. unfold u8. apply Z.mod_pos_bound. lia. Qed.

Lemma u32_range (x : Z) : 0 <= u32 x < 2 ^ 32.
Proof. unfold u32. apply Z.mod_pos_bound. lia. Qed.

Lemma u32_small (x : Z) : 0 <= x < 2 ^ 32 -> u32 x = x.
Proof. intros H. unfold u32. apply Z.mod_small. exact H. Qed.

Lemma u32_idem (x : Z) : u32 (u32 x) = u32 x.
Proof. apply u32_small, u32_range. Qed.

Lemma u8_small (x : Z) : 0 <= x < 2 ^ 8 -> u8 x = x.
Proof. intros H. unfold u8. apply Z.mod_small. exact H. Qed.

Lemma shiftl8_u16_fits (x : Z) : u32 (Z.shiftl (u16 x) 8) = Z.shiftl (u16 x) 8.
Proof.
  apply u32_small. rewrite Z.shiftl_mul_pow2 by lia.
  pose proof (u16_range x). lia.
Qed.

(** Or-ing a value below [2^n] into a value shifted left by [n] adds
    them: the two occupy different bits. *)
Lemma lor_shiftl_low (hi lo n : Z) :
  0 <= n -> 0 <= lo < 2 ^ n -> Z.lor (Z.shiftl hi n) lo = hi * 2 ^ n + lo.
Proof.
  intros Hn Hlo.
  assert (H0 : Z.land (Z.shiftl hi n) lo = 0).
  { apply Z.bits_inj'. intros k Hk.
    rewrite Z.land_spec, Z.bits_0.
    destruct (Z.ltb_spec k n) as [Hlt|Hge].
    - rewrite Z.shiftl_spec_low by exact Hlt. reflexivity.
    - rewrite <- (Z.mod_small lo (2 ^ n)) by exact Hlo.
      rewrite Z.mod_pow2_bits_high by lia.
      apply Bool.andb_false_r. }
  rewrite <- Z.lxor_lor by exact H0.
  rewrite <- Z.add_nocarry_lxor by exact H0.
  rewrite Z.shiftl_mul_pow2 by exact Hn. reflexivity.
Qed.

(** The three fields of a command word can be read back: the key from
    bits 24 up, the argument from bits 8 to 23, the opcode from bits 0
    to 7. *)
Lemma command_word_fields (c a : Z) :
  0 <= c < 2 ^ 8 -> 0 <= a < 2 ^ 16 ->
  Z.shiftr (Z.lor (Z.lor (Z.shiftl 0x5A 24) c) (Z.shiftl a 8)) 24 = 0x5A /\
  Z.land (Z.shiftr (Z.lor (Z.lor (Z.shiftl 0x5A 24) c) (Z.shiftl a 8)) 8)
         0xFFFF = a /\
  Z.land (Z.lor (Z.lor (Z.shiftl 0x5A 24) c) (Z.shiftl a 8)) 0xFF = c.
Proof.
  intros Hc Ha.
  assert (E : Z.lor (Z.lor (Z.shiftl 0x5A 24) c) (Z.shiftl a 8) =
              0x5A * 2 ^ 24 + a * 2 ^ 8 + c).
  { rewrite <- Z.lor_assoc, (Z.lor_comm c).
    rewrite (lor_shiftl_low a c 8) by lia.
    rewrite lor_shiftl_low by lia. lia. }
  rewrite E.
  change 0xFFFF with (Z.ones 16). change 0xFF with (Z.ones 8).
  rewrite !Z.land_ones, !Z.shiftr_div_pow2 by lia.
  change (2 ^ 24) with 16777216. change (2 ^ 8) with 256.
  change (2 ^ 16) with 65536 in *. change (2 ^ 8) with 256 in *.
  repeat split.
  - symmetry. apply Z.div_unique with (r := a * 256 + c); lia.
  - symmetry. apply Z.mod_unique with (q := 0x5A); [lia|].
    assert ((90 * 16777216 + a * 256 + c) / 256 = 0x5A * 65536 + a) as ->.
    { symmetry. apply Z.div_unique with (r := c); lia. }
    lia.
  - symmetry. apply Z.mod_unique with (q := 0x5A * 65536 + a); lia.
Qed.

Lemma fkey_value : EEFC_FCR_FKEY = Z.shiftl 0x5A 24.
Proof. reflexivity. Qed.

(** ** The sequencer *)

Section Sequencer.

Variable env : oracle.

(** The sequencer begins by logging and writing the command word; the rest
    is the polling loop run from the world after these two events. *)
Lemma sam3x_flash_cmd_unfold (fuel : nat) (base cmd arg : Z) (w : world) :
  sam3x_flash_cmd env fuel base cmd arg w =
  let w1 := mk_world (tgt w) (trace w ++ issue_events base cmd arg)
                     (reads w) (checks w) (allocs w) in
  match sam3x_flash_cmd_poll env fuel (u32 base) w1 with
  | (Some (Some r), w2) => (Some r, w2)
  | (Some None, w2) =>
      (Some (Z.land (status env base (reads w2)) EEFC_FSR_ERROR),
       mk_world (tgt w2)
                (trace w2 ++ [ev_read32 (EEFC_FSR (u32 base))
                                        (status env base (reads w2))])
                (S (reads w2)) (checks w2) (allocs w2))
  | (None, w2) => (None, w2)
  end.
Proof.
  unfold sam3x_flash_cmd, bind, DEBUG_INFO, target_mem_write32, emit.
  cbn [tgt trace reads checks allocs].
  rewrite shiftl8_u16_fits, fkey_value.
  rewrite <- app_assoc. cbn [app].
  fold (command_word cmd arg).
  unfold issue_events.
  destruct (sam3x_flash_cmd_poll env fuel (u32 base) _) as [[[r|]|] w2];
    try reflexivity.
Qed.

(** One round of the polling loop. *)
Lemma poll_step (fuel : nat) (base : Z) (w : world) :
  sam3x_flash_cmd_poll env (S fuel) (u32 base) w =
  let sr := status env base (reads w) in
  let w1 := mk_world (tgt w)
              (trace w ++ [ev_read32 (EEFC_FSR (u32 base)) sr])
              (S (reads w)) (checks w) (allocs w) in
  if ready sr then (Some None, w1)
  else
    let w2 := mk_world (tgt w)
                (trace w ++ [ev_read32 (EEFC_FSR (u32 base)) sr;
                             ev_check_error (link_error env (checks w))])
                (S (reads w)) (S (checks w)) (allocs w) in
    if link_error env (checks w) then (Some (Some (-1)), w2)
    else sam3x_flash_cmd_poll env fuel (u32 base) w2.
Proof.
  cbn [sam3x_flash_cmd_poll].
  unfold bind, target_mem_read32, target_check_error, ret, ready, status.
  cbn [tgt trace reads checks allocs].
  destruct (negb _); [reflexivity|].
  cbn [tgt trace reads checks allocs].
  rewrite <- app_assoc. cbn [app].
  destruct (link_error env (checks w)); reflexivity.
Qed.

(** [n] busy rounds on a healthy link consume [n] units of fuel and leave
    the loop where it started, [n] reads and [n] checks later. *)
Lemma poll_busy (n : nat) :
  forall (fuel : nat) (base : Z) (w : world),
  (forall k, (k < n)%nat ->
     ready (status env base (reads w + k)) = false /\
     link_error env (checks w + k) = false) ->
  sam3x_flash_cmd_poll env (n + fuel) (u32 base) w =
  sam3x_flash_cmd_poll env fuel (u32 base)
    (mk_world (tgt w) (trace w ++ busy_rounds env base (reads w) n)
              (reads w + n) (checks w + n) (allocs w)).
Proof.
  induction n as [|n IH]; intros fuel base w H.
  - cbn [busy_rounds Nat.add]. rewrite app_nil_r, !Nat.add_0_r.
    destruct w; reflexivity.
  - destruct (H 0%nat ltac:(lia)) as [Hr He].
    rewrite !Nat.add_0_r in Hr, He.
    cbn [Nat.add sam3x_flash_cmd_poll].
    unfold bind at 1, target_mem_read32 at 1.
    fold (status env base (reads w)). unfold ready in Hr. rewrite Hr.
    unfold bind at 1, target_check_error at 1.
    cbn [tgt trace reads checks allocs]. rewrite He.
    rewrite IH.
    + cbn [tgt trace reads checks allocs busy_rounds].
      rewrite <- !app_assoc. cbn [app].
      rewrite !Nat.add_succ_r. reflexivity.
    + intros k Hk. cbn [reads checks].
      specialize (H (S k) ltac:(lia)).
      rewrite !Nat.add_succ_r in H. exact H.
Qed.

(** Whatever the polling loop does, it only reads and checks: it writes
    nothing and leaves the session alone. *)
Lemma poll_frame (fuel : nat) :
  forall (base : Z) (w : world) (r : option (option Z)) (w' : world),
  sam3x_flash_cmd_poll env fuel base w = (r, w') ->
  exists evs,
    trace w' = trace w ++ evs /\
    writes32 evs = [] /\ bulk_writes evs = [] /\
    tgt w' = tgt w /\ allocs w' = allocs w.
Proof.
  induction fuel as [|fuel IH]; intros base w r w' H.
  - injection H as <- <-. exists []. rewrite app_nil_r. auto.
  - cbn [sam3x_flash_cmd_poll] in H.
    unfold bind at 1, target_mem_read32 at 1 in H.
    destruct (negb _).
    + injection H as <- <-. eexists [_].
      split; [reflexivity | cbn; auto].
    + unfold bind at 1, target_check_error at 1 in H.
      cbn [tgt trace reads checks allocs] in H.
      destruct (link_error env (checks w)).
      * injection H as <- <-. eexists [_; _].
        split; [rewrite <- app_assoc; reflexivity | cbn; auto].
      * apply IH in H. destruct H as (evs & Ht & Hw & Hb & Htg & Hal).
        cbn [tgt trace reads checks allocs] in *.
        eexists (_ :: _ :: evs). rewrite Ht, <- !app_assoc. cbn. auto.
Qed.

(** The events of one sequencer call: the command word is issued first and
    exactly once, nothing else is written, the session is untouched. *)
Lemma sam3x_flash_cmd_frame (fuel : nat) (base cmd arg : Z) (w : world)
    (r : option Z) (w' : world) :
  sam3x_flash_cmd env fuel base cmd arg w = (r, w') ->
  exists rest,
    trace w' = trace w ++ issue_events base cmd arg ++ rest /\
    writes32 rest = [] /\ bulk_writes rest = [] /\
    tgt w' = tgt w /\ allocs w' = allocs w.
Proof.
  rewrite sam3x_flash_cmd_unfold. cbv zeta. intros H.
  match type of H with context [sam3x_flash_cmd_poll env fuel ?b ?w1] =>
    pose proof (poll_frame fuel b w1) as F;
    destruct (sam3x_flash_cmd_poll env fuel b w1) as [[[r2|]|] w2] end;
    destruct (F _ _ eq_refl) as (evs & Ht & Hw & Hb & Htg & Hal);
    injection H as <- <-;
    cbn [tgt trace reads checks allocs] in *.
  - exists evs. rewrite Ht, <- app_assoc. auto.
  - eexists (evs ++ [_]). rewrite Ht, <- !app_assoc. split; [reflexivity|].
    unfold writes32, bulk_writes in *. rewrite !flat_map_app, Hw, Hb. cbn. auto.
  - exists evs. rewrite Ht, <- app_assoc. auto.
Qed.

(** A responsive controller makes every call of the sequencer return. *)
Lemma sam3x_flash_cmd_returns (fuel bound : nat) (base cmd arg : Z) (w : world) :
  responsive env base bound -> (bound <= fuel)%nat ->
  exists (r : Z) (w' : world),
    sam3x_flash_cmd env fuel base cmd arg w = (Some r, w').
Proof.
  intros Hresp Hfuel.
  destruct (Hresp (reads w) (checks w)) as (n & Hn & Hbusy & Hend).
  replace fuel with (n + S (fuel - S n))%nat by lia.
  rewrite sam3x_flash_cmd_unfold. cbv zeta.
  rewrite poll_busy by exact Hbusy.
  rewrite poll_step. cbv zeta.
  cbn [tgt trace reads checks allocs].
  destruct (ready (status env base (reads w + n))) eqn:E; [eauto|].
  destruct Hend as [Hend|Hend]; [discriminate|].
  rewrite Hend. eauto.
Qed.

(** C2: in any call of [sam3x_flash_cmd], after [n] polling rounds that
    found the controller busy and the link healthy: if round [n] finds the
    controller busy and the transport-error signal set, the call ends there,
    the error query being its last event, and returns -1; if round [n] reads
    the ready bit, the call reads the status register once more and returns
    that value masked with the command-error and lock-error bits, a value
    that is never -1. *)
Theorem sam3x_flash_cmd_outcome (fuel n : nat) (base cmd arg : Z) (w : world) :
  (n < fuel)%nat ->
  (forall k, (k < n)%nat ->
     ready (status env base (reads w + k)) = false /\
     link_error env (checks w + k) = false) ->
  (ready (status env base (reads w + n)) = false ->
   link_error env (checks w + n) = true ->
   sam3x_flash_cmd env fuel base cmd arg w =
     (Some (-1),
      mk_world (tgt w)
        (trace w ++ issue_events base cmd arg
           ++ busy_rounds env base (reads w) n
           ++ [ev_read32 (EEFC_FSR (u32 base)) (status env base (reads w + n));
               ev_check_error true])
        (S (reads w + n)) (S (checks w + n)) (allocs w)))
  /\
  (ready (status env base (reads w + n)) = true ->
   sam3x_flash_cmd env fuel base cmd arg w =
     (Some (Z.land (status env base (S (reads w + n))) EEFC_FSR_ERROR),
      mk_world (tgt w)
        (trace w ++ issue_events base cmd arg
           ++ busy_rounds env base (reads w) n
           ++ [ev_read32 (EEFC_FSR (u32 base)) (status env base (reads w + n));
               ev_read32 (EEFC_FSR (u32 base))
                         (status env base (S (reads w + n)))])
        (S (S (reads w + n))) (checks w + n) (allocs w))
   /\ Z.land (status env base (S (reads w + n))) EEFC_FSR_ERROR <> -1
   /\ Z.land (status env base (S (reads w + n))) EEFC_FSR_ERROR =
      Z.lor (Z.land (status env base (S (reads w + n))) EEFC_FSR_FCMDE)
            (Z.land (status env base (S (reads w + n))) EEFC_FSR_FLOCKE)).
Proof.
  intros Hfuel Hbusy.
  replace fuel with (n + S (fuel - S n))%nat by lia.
  rewrite sam3x_flash_cmd_unfold. cbv zeta.
  rewrite poll_busy by exact Hbusy.
  rewrite poll_step. cbv zeta.
  cbn [tgt trace reads checks allocs].
  split.
  - intros Hr He. rewrite Hr, He.
    rewrite <- !app_assoc. reflexivity.
  - intros Hr. rewrite Hr.
    cbn [tgt trace reads checks allocs].
    split; [|split].
    + rewrite <- !app_assoc. reflexivity.
    + assert (0 <= Z.land (status env base (S (reads w + n))) EEFC_FSR_ERROR).
      { apply Z.land_nonneg. right. cbv. discriminate. }
      lia.
    + unfold EEFC_FSR_ERROR. apply Z.land_lor_distr_r.
Qed.

(** C3: for every 8-bit opcode [cmd] and every argument [arg], the first
    thing a call of [sam3x_flash_cmd] writes, and the only 32-bit write of
    the call, goes to the command register and is the word
    [(0x5A << 24) | cmd | ((arg mod 2^16) << 8)]: the key 0x5A sits in
    bits 24 and up, the argument truncated to 16 bits in bits 8 to 23, the
    opcode in bits 0 to 7. *)
Theorem sam3x_flash_cmd_word (fuel : nat) (base cmd arg : Z) (w : world) :
  0 <= cmd < 2 ^ 8 ->
  exists (pre : event) (rest : list event),
    trace (snd (sam3x_flash_cmd env fuel base cmd arg w)) =
      trace w ++ pre
        :: ev_write32 (EEFC_FCR (u32 base))
             (Z.lor (Z.lor (Z.shiftl 0x5A 24) cmd)
                    (Z.shiftl (arg mod 2 ^ 16) 8))
        :: rest /\
    writes32 [pre] = [] /\ writes32 rest = [] /\
    Z.shiftr (Z.lor (Z.lor (Z.shiftl 0x5A 24) cmd)
                    (Z.shiftl (arg mod 2 ^ 16) 8)) 24 = 0x5A /\
    Z.land (Z.shiftr (Z.lor (Z.lor (Z.shiftl 0x5A 24) cmd)
                            (Z.shiftl (arg mod 2 ^ 16) 8)) 8) 0xFFFF
      = arg mod 2 ^ 16 /\
    Z.land (Z.lor (Z.lor (Z.shiftl 0x5A 24) cmd)
                  (Z.shiftl (arg mod 2 ^ 16) 8)) 0xFF = cmd.
Proof.
  intros Hcmd.
  destruct (sam3x_flash_cmd_frame fuel base cmd arg w _ _
              (surjective_pairing _)) as (rest & Ht & Hw & _).
  unfold issue_events, command_word in Ht. rewrite (u8_small cmd Hcmd) in Ht.
  eexists _, rest. split; [exact Ht|].
  split; [reflexivity|]. split; [exact Hw|].
  apply command_word_fields; [exact Hcmd|apply u16_range].
Qed.

End Sequencer.

(** ** Erase and write *)

Section Operations.

Variable env : oracle.

Lemma new_events_app (w w' : world) (evs : list event) :
  trace w' = trace w ++ evs -> new_events w w' = evs.
Proof.
  intros H. unfold new_events. rewrite H.
  rewrite skipn_app, skipn_all, Nat.sub_diag. reflexivity.
Qed.

(** The sequencer sees its argument through [uint16_t]: passing an
    [int16_t] changes nothing. *)
Lemma sam3x_flash_cmd_arg16 (fuel : nat) (base cmd x : Z) :
  sam3x_flash_cmd env fuel base cmd (s16 x) =
  sam3x_flash_cmd env fuel base cmd x.
Proof. unfold sam3x_flash_cmd. rewrite u16_s16. reflexivity. Qed.

Lemma blocks_for_zero (bs : Z) : 0 < bs -> blocks_for 0 bs = 0%nat.
Proof.
  intros H. unfold blocks_for.
  rewrite Z.div_small by lia. reflexivity.
Qed.

Lemma blocks_for_step (len bs : Z) :
  0 < bs -> 0 < len ->
  blocks_for len bs =
  S (blocks_for (if len >? bs then len - bs else 0) bs).
Proof.
  intros Hbs Hlen. unfold blocks_for.
  destruct (Z.gtb_spec len bs) as [Hgt|Hle].
  - replace (len + bs - 1) with ((len - bs + bs - 1) + 1 * bs) by lia.
    rewrite Z.div_add by lia.
    assert (0 <= (len - bs + bs - 1) / bs) by (apply Z.div_pos; lia).
    lia.
  - replace (len + bs - 1) with ((len - 1) + 1 * bs) by lia.
    rewrite Z.div_add by lia.
    rewrite !Z.div_small by lia. reflexivity.
Qed.

Lemma erase_pages_step (first : Z) (count : nat) :
  erase_pages first (S count) =
  u32 first :: erase_pages (u32 (first + 8)) count.
Proof.
  unfold erase_pages. cbn [seq map].
  rewrite Z.mul_0_r, Z.add_0_r. f_equal.
  rewrite <- seq_shift, map_map.
  apply map_ext. intros i. unfold u32.
  rewrite Zplus_mod_idemp_l. f_equal. lia.
Qed.

(** The loop issues exactly the commands of the page list. *)
Lemma sam4_flash_erase_loop_pages (fuel : nat) (sf : sam_flash) (base : Z)
    (n : nat) :
  forall (chunk len : Z) (w : world),
  0 < f_blocksize (f sf) -> 0 <= len -> 0 <= chunk < 2 ^ 32 ->
  (blocks_for len (f_blocksize (f sf)) <= n)%nat ->
  sam4_flash_erase_loop env n fuel sf base chunk len w =
  issue_page_erases env fuel base
    (erase_pages chunk (blocks_for len (f_blocksize (f sf)))) w.
Proof.
  induction n as [|n IH]; intros chunk len w Hbs Hlen Hchunk Hn.
  - destruct (Z.eq_dec len 0) as [->|Hne].
    + rewrite blocks_for_zero by exact Hbs. reflexivity.
    + rewrite blocks_for_step in Hn by lia. lia.
  - destruct (Z.eq_dec len 0) as [->|Hne].
    + rewrite blocks_for_zero by exact Hbs. reflexivity.
    + cbn [sam4_flash_erase_loop].
      destruct (Z.eqb_spec len 0) as [|_]; [contradiction|].
      rewrite blocks_for_step by lia.
      rewrite erase_pages_step. cbn [issue_page_erases].
      rewrite sam3x_flash_cmd_arg16, (u32_small chunk Hchunk).
      unfold bind.
      destruct (sam3x_flash_cmd env fuel base EEFC_FCR_FCMD_EPA _ w)
        as [[r|] w1]; [|reflexivity].
      destruct (r =? 0); cbn [negb]; [|reflexivity].
      apply IH.
      * exact Hbs.
      * destruct (len >? f_blocksize (f sf)) eqn:E; [|lia].
        apply Z.gtb_lt in E. lia.
      * apply u32_range.
      * rewrite blocks_for_step in Hn by lia. lia.
Qed.

(** The commands of a page list, as the trace shows them: the command
    words of a prefix of the list, the whole list when the result is 0,
    and nothing else written. *)
Lemma issue_page_erases_commands (fuel : nat) (base : Z) (pages : list Z) :
  forall (w : world) (r : option Z) (w' : world),
  issue_page_erases env fuel base pages w = (r, w') ->
  exists (k : nat) (evs : list event),
    trace w' = trace w ++ evs /\
    (k <= List.length pages)%nat /\
    writes32 evs =
      map (fun p => (EEFC_FCR (u32 base),
                     command_word EEFC_FCR_FCMD_EPA (Z.lor p 0x1)))
          (firstn k pages) /\
    bulk_writes evs = [] /\
    tgt w' = tgt w /\
    (r = Some 0 -> k = List.length pages) /\
    (forall x, r = Some x -> x = 0 \/ (x = -1 /\ (0 < k)%nat)).
Proof.
  induction pages as [|p ps IH]; intros w r w' H.
  - injection H as <- <-. exists 0%nat, [].
    rewrite app_nil_r. repeat split; auto.
    intros x Hx. injection Hx as <-. auto.
  - cbn [issue_page_erases] in H. unfold bind in H.
    destruct (sam3x_flash_cmd env fuel base EEFC_FCR_FCMD_EPA (Z.lor p 1) w)
      as [[r1|] w1] eqn:E;
      apply sam3x_flash_cmd_frame in E;
      destruct E as (rest & Ht & Hw & Hb & Htg & _).
    + destruct (r1 =? 0).
      * apply IH in H.
        destruct H as (k & evs & Ht' & Hk & Hw' & Hb' & Htg' & H0 & Hx).
        exists (S k), (issue_events base EEFC_FCR_FCMD_EPA (Z.lor p 1)
                        ++ rest ++ evs).
        rewrite Ht', Ht, <- !app_assoc.
        split; [reflexivity|].
        split; [cbn [List.length]; lia|].
        unfold writes32, bulk_writes in *.
        rewrite !flat_map_app, Hw, Hw', Hb, Hb'.
        split; [reflexivity|]. split; [reflexivity|].
        split; [congruence|].
        split; [intros ->; cbn [List.length]; f_equal; auto|].
        intros x ->. destruct (Hx x eq_refl) as [->|[-> _]]; [auto|].
        right. split; [reflexivity|lia].
      * injection H as <- <-.
        exists 1%nat, (issue_events base EEFC_FCR_FCMD_EPA (Z.lor p 1) ++ rest).
        split; [exact Ht|].
        split; [cbn [List.length]; lia|].
        unfold writes32, bulk_writes in *.
        rewrite !flat_map_app, Hw, Hb.
        split; [reflexivity|]. split; [reflexivity|].
        split; [exact Htg|].
        split; [discriminate|].
        intros x Hx. injection Hx as <-. right. split; [reflexivity|lia].
    + injection H as <- <-.
      exists 1%nat, (issue_events base EEFC_FCR_FCMD_EPA (Z.lor p 1) ++ rest).
      split; [exact Ht|].
      split; [cbn [List.length]; lia|].
      unfold writes32, bulk_writes in *.
      rewrite !flat_map_app, Hw, Hb.
      split; [reflexivity|]. split; [reflexivity|].
      split; [exact Htg|].
      split; discriminate.
Qed.


Lemma erase_pages_length (first : Z) (count : nat) :
  List.length (erase_pages first count) = count.
Proof. unfold erase_pages. rewrite length_map, length_seq. reflexivity. Qed.

Lemma erase_first_page_range (sf : sam_flash) (addr : Z) :
  0 <= erase_first_page sf addr < 2 ^ 32.
Proof.
  unfold erase_first_page, SAM4_PAGE_SIZE.
  pose proof (u32_range (addr - f_start (f sf))) as H. split.
  - apply Z.div_pos; lia.
  - apply Z.div_lt_upper_bound; lia.
Qed.


(** What a write does, step by step. *)
Lemma sam3x_flash_write_unfold (fuel : nat) (sf : sam_flash) (dest : Z)
    (src : list Z) (len : Z) (w : world) :
  0 < f_buf_size (f sf) ->
  flash_write env fuel sf dest src len w =
  match sam3x_flash_cmd env fuel (eefc_base sf) (write_cmd sf)
          (write_chunk sf dest) (emit (ev_write dest src len) w) with
  | (Some r, w2) => (Some (if r =? 0 then 0 else -1), w2)
  | (None, w2) => (None, w2)
  end.
Proof.
  intros Hbuf.
  unfold flash_write, sam3x_flash_write, bind, target_mem_write.
  destruct (f_write (f sf)).
  fold (write_chunk sf dest).
  rewrite (u32_small (write_chunk sf dest)).
  - destruct (sam3x_flash_cmd _ _ _ _ _ _) as [[r|] w2]; [|reflexivity].
    destruct (r =? 0); reflexivity.
  - unfold write_chunk.
    pose proof (u32_range (dest - f_start (f sf))) as H. split.
    + apply Z.div_pos; lia.
    + apply Z.div_lt_upper_bound; nia.
Qed.

(** C6, as the code has it: a write first hands the buffer to the bulk
    memory write, then issues exactly one command through the sequencer,
    the region's write command with argument
    [(dest - region.start) / buf_size], and returns 0 when the sequencer's
    result is 0 and -1 for every other result of the sequencer. *)
Theorem sam3x_flash_write_steps (fuel : nat) (sf : sam_flash) (dest : Z)
    (src : list Z) (len : Z) (w : world) :
  0 < f_buf_size (f sf) ->
  flash_write env fuel sf dest src len w =
    match sam3x_flash_cmd env fuel (eefc_base sf) (write_cmd sf)
            (write_chunk sf dest) (emit (ev_write dest src len) w) with
    | (Some r, w2) => (Some (if r =? 0 then 0 else -1), w2)
    | (None, w2) => (None, w2)
    end
  /\
  (forall (r : option Z) (w' : world),
     flash_write env fuel sf dest src len w = (r, w') ->
     exists rest : list event,
       new_events w w' =
         ev_write dest src len
         :: issue_events (eefc_base sf) (write_cmd sf) (write_chunk sf dest)
         ++ rest /\
       writes32 (new_events w w') =
         [(EEFC_FCR (u32 (eefc_base sf)),
           command_word (write_cmd sf) (write_chunk sf dest))] /\
       bulk_writes (new_events w w') = [(dest, src, len)] /\
       tgt w' = tgt w)
  /\
  (forall bound : nat,
     responsive env (eefc_base sf) bound -> (bound <= fuel)%nat ->
     exists (x : Z) (w' : world),
       flash_write env fuel sf dest src len w = (Some x, w') /\
       (x = 0 \/ x = -1)).
Proof.
  intros Hbuf.
  rewrite (sam3x_flash_write_unfold fuel sf dest src len w Hbuf).
  split; [reflexivity|]. split.
  - intros r w' H.
    destruct (sam3x_flash_cmd _ _ _ _ _ _) as [r1 w1] eqn:E.
    apply sam3x_flash_cmd_frame in E.
    destruct E as (rest & Ht & Hw & Hb & Htg & _).
    cbn [emit tgt trace] in Ht, Htg.
    assert (w' = w1) as -> by (destruct r1; congruence).
    rewrite <- app_assoc in Ht. cbn [app] in Ht.
    rewrite (new_events_app _ _ _ Ht).
    exists rest. split; [reflexivity|].
    unfold writes32, bulk_writes in *. cbn [flat_map issue_events app].
    rewrite Hw, Hb. auto.
  - intros bound Hresp Hb.
    destruct (sam3x_flash_cmd_returns env fuel bound (eefc_base sf)
                (write_cmd sf) (write_chunk sf dest)
                (emit (ev_write dest src len) w) Hresp Hb) as (r & w1 & E).
    rewrite E. exists (if r =? 0 then 0 else -1), w1.
    split; [reflexivity|]. destruct (r =? 0); auto.
Qed.

(** C7: on a region whose erase routine is [sam3_flash_erase], the call
    [erase(region, addr, len)] returns 0 for any address and length and
    leaves the world as it found it: no event is added to the trace, so no
    sequencer call and no memory access takes place. *)
Theorem sam3_flash_erase_noop (fuel : nat) (sf : sam_flash) (addr len : Z)
    (w : world) :
  f_erase (f sf) = erase_sam3 ->
  flash_erase env fuel sf addr len w = (Some 0, w) /\
  new_events w (snd (flash_erase env fuel sf addr len w)) = [] /\
  filter hw_access
    (new_events w (snd (flash_erase env fuel sf addr len w))) = [].
Proof.
  intros Hfn. unfold flash_erase. rewrite Hfn.
  unfold sam3_flash_erase, ret. cbn [snd].
  rewrite (new_events_app w w []) by (rewrite app_nil_r; reflexivity).
  auto.
Qed.

End Operations.

(** ** Monitor commands *)

Section Monitor.

Variable env : oracle.
Variable atol : string -> Z.

Lemma sam3x_cmd_gpnvm_get_unfold (fuel : nat) (argc : Z) (argv : list string)
    (w : world) :
  sam3x_cmd_gpnvm_get env fuel argc argv w =
  match sam3x_flash_cmd env fuel (sam3x_flash_base (tgt w))
          EEFC_FCR_FCMD_GGPB 0 w with
  | (Some _, w1) => (Some true, gpnvm_shown env (sam3x_flash_base (tgt w)) w1)
  | (None, w1) => (None, w1)
  end.
Proof.
  unfold sam3x_cmd_gpnvm_get, bind, get_target.
  destruct (sam3x_flash_cmd _ _ _ _ _ _) as [[r|] w1]; [|reflexivity].
  unfold target_mem_read32, tc_printf, ret, emit, gpnvm_shown.
  cbn [tgt trace reads checks allocs].
  rewrite <- app_assoc. reflexivity.
Qed.

Lemma sam3x_cmd_gpnvm_set_unfold (fuel : nat) (argc : Z) (argv : list string)
    (w : world) :
  argc = 3 ->
  sam3x_cmd_gpnvm_set env atol fuel argc argv w =
  match sam3x_flash_cmd env fuel (sam3x_flash_base (tgt w))
          (if atol (nth 2 argv EmptyString) =? 0
           then EEFC_FCR_FCMD_CGPB else EEFC_FCR_FCMD_SGPB)
          (u32 (atol (nth 1 argv EmptyString))) w with
  | (Some _, w1) =>
      match sam3x_flash_cmd env fuel (sam3x_flash_base (tgt w))
              EEFC_FCR_FCMD_GGPB 0 w1 with
      | (Some _, w2) => (Some true, gpnvm_shown env (sam3x_flash_base (tgt w)) w2)
      | (None, w2) => (None, w2)
      end
  | (None, w1) => (None, w1)
  end.
Proof.
  intros ->. unfold sam3x_cmd_gpnvm_set, bind, get_target.
  cbn [Z.eqb Pos.eqb negb].
  destruct (atol (nth 2 argv EmptyString) =? 0); cbn [negb];
    (destruct (sam3x_flash_cmd _ _ _ _ _ w) as [[r|] w1] eqn:E;
     [|reflexivity]);
    apply sam3x_flash_cmd_frame in E;
    destruct E as (_ & _ & _ & _ & Htg & _);
    rewrite sam3x_cmd_gpnvm_get_unfold, Htg;
    destruct (sam3x_flash_cmd _ _ _ _ _ w1) as [[r2|] w2]; reflexivity.
Qed.

(** C9: called with an argument count other than three (the command name
    and two arguments), [gpnvm_set] prints the usage message, returns
    false and does nothing else: no event goes over the debug link. *)
Theorem sam3x_cmd_gpnvm_set_usage (fuel : nat) (argc : Z)
    (argv : list string) (w : world) :
  argc <> 3 ->
  sam3x_cmd_gpnvm_set env atol fuel argc argv w =
    (Some false,
     emit (ev_tc_printf ("usage: monitor gpnvm_set <bit> <val>" ++ LF) []) w)
  /\
  new_events w (snd (sam3x_cmd_gpnvm_set env atol fuel argc argv w)) =
    [ev_tc_printf ("usage: monitor gpnvm_set <bit> <val>" ++ LF) []]
  /\
  filter hw_access
    (new_events w (snd (sam3x_cmd_gpnvm_set env atol fuel argc argv w))) = [].
Proof.
  intros Hargc.
  assert (E : sam3x_cmd_gpnvm_set env atol fuel argc argv w =
    (Some false,
     emit (ev_tc_printf ("usage: monitor gpnvm_set <bit> <val>" ++ LF) []) w)).
  { unfold sam3x_cmd_gpnvm_set, bind at 1, get_target.
    destruct (Z.eqb_spec argc 3) as [|_]; [contradiction|]. reflexivity. }
  rewrite E. cbn [snd].
  rewrite (new_events_app w
             (emit (ev_tc_printf
                      ("usage: monitor gpnvm_set <bit> <val>" ++ LF) []) w)
             [ev_tc_printf ("usage: monitor gpnvm_set <bit> <val>" ++ LF) []]
             eq_refl).
  auto.
Qed.

(** C10: whatever the sequencer returns for the command it is given,
    -1 and the error masks included, [gpnvm_get] goes on to read the
    result register, prints its value and returns true, and so does
    [gpnvm_set] called with the command name and two arguments; with a
    controller that answers, both handlers return, and return true. *)
Theorem sam3x_cmd_gpnvm_ignores_result (fuel : nat) (argc : Z)
    (argv : list string) (w : world) :
  (forall (r : Z) (w1 : world),
     sam3x_flash_cmd env fuel (sam3x_flash_base (tgt w))
       EEFC_FCR_FCMD_GGPB 0 w = (Some r, w1) ->
     sam3x_cmd_gpnvm_get env fuel argc argv w =
       (Some true, gpnvm_shown env (sam3x_flash_base (tgt w)) w1))
  /\
  (argc = 3 ->
   forall (r1 r2 : Z) (w1 w2 : world),
     sam3x_flash_cmd env fuel (sam3x_flash_base (tgt w))
       (if atol (nth 2 argv EmptyString) =? 0
        then EEFC_FCR_FCMD_CGPB else EEFC_FCR_FCMD_SGPB)
       (u32 (atol (nth 1 argv EmptyString))) w = (Some r1, w1) ->
     sam3x_flash_cmd env fuel (sam3x_flash_base (tgt w))
       EEFC_FCR_FCMD_GGPB 0 w1 = (Some r2, w2) ->
     sam3x_cmd_gpnvm_set env atol fuel argc argv w =
       (Some true, gpnvm_shown env (sam3x_flash_base (tgt w)) w2))
  /\
  (forall bound : nat,
     responsive env (sam3x_flash_base (tgt w)) bound ->
     (bound <= fuel)%nat ->
     (exists w', sam3x_cmd_gpnvm_get env fuel argc argv w = (Some true, w')) /\
     (argc = 3 ->
      exists w', sam3x_cmd_gpnvm_set env atol fuel argc argv w =
                 (Some true, w'))).
Proof.
  split; [|split].
  - intros r w1 E. rewrite sam3x_cmd_gpnvm_get_unfold, E. reflexivity.
  - intros Hargc r1 r2 w1 w2 E1 E2.
    rewrite sam3x_cmd_gpnvm_set_unfold, E1, E2 by exact Hargc. reflexivity.
  - intros bound Hresp Hb. split.
    + rewrite sam3x_cmd_gpnvm_get_unfold.
      destruct (sam3x_flash_cmd_returns env fuel bound _ EEFC_FCR_FCMD_GGPB 0
                  w Hresp Hb) as (r & w1 & E).
      rewrite E. eauto.
    + intros Hargc. rewrite sam3x_cmd_gpnvm_set_unfold by exact Hargc.
      destruct (sam3x_flash_cmd_returns env fuel bound _
                  (if atol (nth 2 argv EmptyString) =? 0
                   then EEFC_FCR_FCMD_CGPB else EEFC_FCR_FCMD_SGPB)
                  (u32 (atol (nth 1 argv EmptyString)))
                  w Hresp Hb) as (r1 & w1 & E1).
      destruct (sam3x_flash_cmd_returns env fuel bound _ EEFC_FCR_FCMD_GGPB 0
                  w1 Hresp Hb) as (r2 & w2 & E2).
      rewrite E1, E2. eauto.
Qed.

End Monitor.

(** ** Probing *)

Section Probing.

Variable env : oracle.

Ltac run_probe :=
  unfold bind, ret, target_mem_read32, target_add_ram, target_add_flash,
    target_add_commands, set_driver, set_target_storage, calloc, DEBUG_WARN,
    set_tgt, emit;
  cbn [tgt trace reads checks allocs driver ram flash commands
       target_storage negb].

Ltac probe_simpl :=
  cbn [tgt trace reads checks allocs driver ram flash commands
       target_storage app].

Ltac probe_done :=
  probe_simpl; rewrite <- ?app_assoc, ?app_nil_r; reflexivity.

Ltac probe_finish :=
  eexists; split; [reflexivity|]; split;
  [probe_done | split; [cbn [allocs List.length]; lia | discriminate]].

(** One call of [sam3_add_flash] or [sam4_add_flash]: the region is
    appended when the allocation succeeds; otherwise a warning is logged
    and the session stays as it was.  Either way the call returns. *)
Lemma sam3_add_flash_run (eefc_base addr length : Z) (w : world) :
  sam3_add_flash env eefc_base addr length w =
  (Some tt,
   if heap_ok env (allocs w) then
     mk_world (mk_target (driver (tgt w)) (ram (tgt w))
                 (flash (tgt w) ++ [sam3_region eefc_base addr length])
                 (commands (tgt w)) (target_storage (tgt w)))
              (trace w ++ [ev_calloc true])
              (reads w) (checks w) (S (allocs w))
   else
     mk_world (tgt w)
              (trace w ++ [ev_calloc false;
                           ev_debug_warn ("calloc: failed in %s" ++ LF)
                                         "sam3_add_flash"])
              (reads w) (checks w) (S (allocs w))).
Proof.
  unfold sam3_add_flash. run_probe.
  destruct (heap_ok env (allocs w)); cbn [negb]; run_probe;
    rewrite <- ?app_assoc; reflexivity.
Qed.

Lemma sam4_add_flash_run (eefc_base addr length : Z) (w : world) :
  sam4_add_flash env eefc_base addr length w =
  (Some tt,
   if heap_ok env (allocs w) then
     mk_world (mk_target (driver (tgt w)) (ram (tgt w))
                 (flash (tgt w) ++ [sam4_region eefc_base addr length])
                 (commands (tgt w)) (target_storage (tgt w)))
              (trace w ++ [ev_calloc true])
              (reads w) (checks w) (S (allocs w))
   else
     mk_world (tgt w)
              (trace w ++ [ev_calloc false;
                           ev_debug_warn ("calloc: failed in %s" ++ LF)
                                         "sam4_add_flash"])
              (reads w) (checks w) (S (allocs w))).
Proof.
  unfold sam4_add_flash. run_probe.
  destruct (heap_ok env (allocs w)); cbn [negb]; run_probe;
    rewrite <- ?app_assoc; reflexivity.
Qed.

Lemma registered_flash_app (w w' : world) (l : list sam_flash) :
  flash (tgt w') = flash (tgt w) ++ l -> registered_flash w w' = l.
Proof.
  intros H. unfold registered_flash. rewrite H.
  rewrite skipn_app, skipn_all, Nat.sub_diag. reflexivity.
Qed.

(** What [sam3x_probe] returns and registers, on every line and whatever
    the allocator does. *)
Lemma sam3x_probe_run (w : world) :
  exists w',
    sam3x_probe env w =
      (Some (match sam3x_probe_family env w with
             | Some _ => true
             | None => false
             end), w') /\
    flash (tgt w') =
      flash (tgt w) ++
      match sam3x_probe_family env w with
      | Some fam => allocated env (allocs w)
                      (banks fam (sam3x_probe_size env w))
      | None => []
      end /\
    allocs w' =
      (allocs w +
       match sam3x_probe_family env w with
       | Some fam => List.length (banks fam (sam3x_probe_size env w))
       | None => 0
       end)%nat /\
    (sam3x_probe_family env w = None ->
     w' = mk_world (tgt w)
            (trace w ++ [ev_read32 SAM3X_CHIPID_CIDR (cidr_sam3x env w);
                         ev_read32 SAM34NSU_CHIPID_CIDR (cidr_sam34nsu env w)])
            (S (S (reads w))) (checks w) (allocs w)).
Proof.
  unfold sam3x_probe, sam3x_probe_family, sam3x_probe_size.
  unfold bind at 1, target_mem_read32 at 1.
  fold (cidr_sam3x env w). fold (arch_eproc (cidr_sam3x env w)).
  change [Z.lor CHIPID_CIDR_ARCH_SAM3XxC CHIPID_CIDR_EPROC_CM3;
          Z.lor CHIPID_CIDR_ARCH_SAM3XxE CHIPID_CIDR_EPROC_CM3;
          Z.lor CHIPID_CIDR_ARCH_SAM3XxG CHIPID_CIDR_EPROC_CM3]
    with (family_table SAM3X).
  destruct (in_cases (arch_eproc (cidr_sam3x env w)) (family_table SAM3X)).
  - unfold bind, set_driver, target_add_ram, target_add_commands, ret, set_tgt.
    rewrite !sam3_add_flash_run.
    cbn [tgt trace reads checks allocs driver ram flash commands
         target_storage banks allocated].
    destruct (heap_ok env (allocs w)); probe_simpl;
      destruct (heap_ok env (S (allocs w))); probe_simpl; probe_finish.
  - unfold bind at 1, target_mem_read32 at 1.
    cbn [tgt trace reads checks allocs].
    fold (cidr_sam34nsu env w). fold (arch_eproc (cidr_sam34nsu env w)).
    change [Z.lor CHIPID_CIDR_ARCH_SAM3NxA CHIPID_CIDR_EPROC_CM3;
            Z.lor CHIPID_CIDR_ARCH_SAM3NxB CHIPID_CIDR_EPROC_CM3;
            Z.lor CHIPID_CIDR_ARCH_SAM3NxC CHIPID_CIDR_EPROC_CM3;
            Z.lor CHIPID_CIDR_ARCH_SAM3SxA CHIPID_CIDR_EPROC_CM3;
            Z.lor CHIPID_CIDR_ARCH_SAM3SxB CHIPID_CIDR_EPROC_CM3;
            Z.lor CHIPID_CIDR_ARCH_SAM3SxC CHIPID_CIDR_EPROC_CM3]
      with (family_table SAM3NS).
    change [Z.lor CHIPID_CIDR_ARCH_SAM3UxC CHIPID_CIDR_EPROC_CM3;
            Z.lor CHIPID_CIDR_ARCH_SAM3UxE CHIPID_CIDR_EPROC_CM3]
      with (family_table SAM3U).
    change [Z.lor CHIPID_CIDR_ARCH_SAM4SxA CHIPID_CIDR_EPROC_CM4;
            Z.lor CHIPID_CIDR_ARCH_SAM4SxB CHIPID_CIDR_EPROC_CM4;
            Z.lor CHIPID_CIDR_ARCH_SAM4SxC CHIPID_CIDR_EPROC_CM4;
            Z.lor CHIPID_CIDR_ARCH_SAM4SDB CHIPID_CIDR_EPROC_CM4;
            Z.lor CHIPID_CIDR_ARCH_SAM4SDC CHIPID_CIDR_EPROC_CM4]
      with (family_table SAM4S).
    destruct (in_cases (arch_eproc (cidr_sam34nsu env w)) (family_table SAM3NS));
      [|destruct (in_cases (arch_eproc (cidr_sam34nsu env w))
                   (family_table SAM3U));
        [|destruct (in_cases (arch_eproc (cidr_sam34nsu env w))
                     (family_table SAM4S))]].
    + unfold bind, set_driver, target_add_ram, target_add_commands, ret,
        set_tgt.
      rewrite !sam3_add_flash_run.
      cbn [tgt trace reads checks allocs driver ram flash commands
           target_storage banks allocated].
      destruct (heap_ok env (allocs w)); probe_simpl; probe_finish.
    + unfold bind, set_driver, target_add_ram, target_add_commands, ret,
        set_tgt.
      cbn [banks].
      destruct (sam_flash_size (cidr_sam34nsu env w) >=? 524288);
        rewrite !sam3_add_flash_run;
        cbn [tgt trace reads checks allocs driver ram flash commands
             target_storage allocated];
        destruct (heap_ok env (allocs w)); probe_simpl;
        try destruct (heap_ok env (S (allocs w))); probe_simpl; probe_finish.
    + unfold bind, set_driver, target_add_ram, target_add_commands, ret,
        set_tgt.
      cbn [banks].
      destruct (sam_flash_size (cidr_sam34nsu env w) <=? 524288);
        unfold bind;
        rewrite !sam4_add_flash_run;
        cbn [tgt trace reads checks allocs driver ram flash commands
             target_storage allocated];
        destruct (heap_ok env (allocs w)); probe_simpl;
        try destruct (heap_ok env (S (allocs w))); probe_simpl; probe_finish.
    + unfold ret. eexists. split; [reflexivity|].
      cbn [tgt allocs]. rewrite app_nil_r. split; [reflexivity|].
      split; [lia|].
      intros _. rewrite <- app_assoc. reflexivity.
Qed.

(** What [samx7x_probe] returns and registers. *)
Lemma samx7x_probe_run (w : world) :
  exists w',
    samx7x_probe env w =
      (Some (in_cases (Z.land (cidr_sam3x env w) CHIPID_CIDR_ARCH_MASK)
                      samx7x_table
             && heap_ok env (S (allocs w))), w') /\
    flash (tgt w') =
      flash (tgt w) ++
      (if in_cases (Z.land (cidr_sam3x env w) CHIPID_CIDR_ARCH_MASK)
                   samx7x_table
       then allocated env (allocs w)
              [sam4_region SAMX7X_EEFC_BASE 0x00400000
                           (flash_size (samx7x_probe_descr env w))]
       else []) /\
    allocs w' =
      (if in_cases (Z.land (cidr_sam3x env w) CHIPID_CIDR_ARCH_MASK)
                   samx7x_table
       then S (S (allocs w)) else allocs w) /\
    (in_cases (Z.land (cidr_sam3x env w) CHIPID_CIDR_ARCH_MASK)
              samx7x_table = false ->
     tgt w' = tgt w /\ allocs w' = allocs w /\ checks w' = checks w /\
     exists evs, trace w' = trace w ++ evs /\
                 writes32 evs = [] /\ bulk_writes evs = []).
Proof.
  unfold samx7x_probe, samx7x_probe_descr, exid_samx7x.
  unfold bind at 1, target_mem_read32 at 1.
  fold (cidr_sam3x env w).
  change [CHIPID_CIDR_ARCH_SAME70; CHIPID_CIDR_ARCH_SAMS70;
          CHIPID_CIDR_ARCH_SAMV71; CHIPID_CIDR_ARCH_SAMV70]
    with samx7x_table.
  destruct (Z.land (cidr_sam3x env w) CHIPID_CIDR_EXT =? 0);
    [unfold bind at 1, ret at 1 | unfold bind at 1, target_mem_read32 at 1];
    cbn [tgt trace reads checks allocs];
    destruct (in_cases (Z.land (cidr_sam3x env w) CHIPID_CIDR_ARCH_MASK)
                       samx7x_table);
    cbn [negb andb].
  1, 3: unfold bind, target_add_ram, target_add_commands, ret, set_tgt,
          calloc, set_target_storage, set_driver, DEBUG_WARN, emit;
        rewrite !sam4_add_flash_run;
        cbn [tgt trace reads checks allocs driver ram flash commands
             target_storage allocated];
        destruct (heap_ok env (allocs w)); probe_simpl;
        destruct (heap_ok env (S (allocs w))); cbn [negb];
        (eexists; split; [reflexivity|]; split;
           [probe_done|split; [reflexivity|discriminate]]).
  all: unfold ret; eexists; split; [reflexivity|];
       split; [probe_done|]; split; [reflexivity|]; intros _; probe_simpl;
       repeat split; eexists; split;
       [rewrite <- ?app_assoc; reflexivity | split; reflexivity].
Qed.

Lemma sam_flash_size_cases (cidr : Z) :
  In (sam_flash_size cidr)
     [0; 0x2000; 0x4000; 0x8000; 0x10000; 0x20000; 0x40000; 0x80000;
      0x100000; 0x200000].
Proof.
  unfold sam_flash_size.
  repeat match goal with
         | |- context [if ?c then _ else _] => destruct c
         end; cbn [In]; auto 12.
Qed.

Lemma allocated_all (a : nat) (l : list sam_flash) :
  (forall n, (a <= n < a + List.length l)%nat -> heap_ok env n = true) ->
  allocated env a l = l.
Proof.
  revert a. induction l as [|r rs IH]; intros a H; [reflexivity|].
  cbn [allocated]. rewrite H by (cbn [List.length]; lia).
  cbn [app]. f_equal. apply IH.
  intros n Hn. apply H. cbn [List.length]. lia.
Qed.

Lemma banks_length (fam : family) (size : Z) :
  (List.length (banks fam size) <= 2)%nat.
Proof.
  destruct fam; cbn [banks List.length]; try lia.
  - destruct (size >=? 524288); cbn [List.length]; lia.
  - destruct (size <=? 524288); cbn [List.length]; lia.
Qed.

(** The banks of a line are laid out back to back and add up to the
    decoded size, for the sizes [banks_add_up] admits. *)
Lemma banks_layout (fam : family) (cidr : Z) :
  banks_add_up (Some fam) (sam_flash_size cidr) ->
  layout_ok (banks fam (sam_flash_size cidr)) (sam_flash_size cidr).
Proof.
  pose proof (sam_flash_size_cases cidr) as Hin.
  generalize dependent (sam_flash_size cidr). intros size Hin Hok.
  cbn [In] in Hin.
  destruct fam; cbn [banks_add_up] in Hok;
    repeat (destruct Hin as [<-|Hin]; [|]); try contradiction;
    try (exfalso; lia);
    try (unfold layout_ok; cbv; intuition congruence).
Qed.

(** C1, as the code has it: when a probe succeeds and every allocation
    made during it succeeded, the flash regions it registered, in
    registration order, have strictly ascending, contiguous base addresses
    and lengths that sum to the decoded flash size -- on the two-bank
    SAM3X line for a decoded size other than zero, on the SAM3U line for a
    decoded size below 512 KiB or of exactly 1 MiB. *)
Theorem probe_layout_when_allocated (w : world) :
  (forall w', sam3x_probe env w = (Some true, w') ->
     (forall n, (allocs w <= n < allocs w')%nat -> heap_ok env n = true) ->
     banks_add_up (sam3x_probe_family env w) (sam3x_probe_size env w) ->
     layout_ok (registered_flash w w') (sam3x_probe_size env w)) /\
  (forall w', samx7x_probe env w = (Some true, w') ->
     (forall n, (allocs w <= n < allocs w')%nat -> heap_ok env n = true) ->
     layout_ok (registered_flash w w')
               (flash_size (samx7x_probe_descr env w))).
Proof.
  split; intros w' E Hheap.
  - intros Hok.
    destruct (sam3x_probe_run w) as (w2 & E2 & Hfl & Hal & _).
    rewrite E in E2.
    destruct (sam3x_probe_family env w) as [fam|] eqn:Ef;
      [|discriminate].
    injection E2 as <-.
    rewrite (registered_flash_app _ _ _ Hfl).
    rewrite allocated_all.
    + unfold sam3x_probe_size in *.
      destruct (in_cases _ (family_table SAM3X)); apply banks_layout; exact Hok.
    + intros n Hn. apply Hheap. lia.
  - destruct (samx7x_probe_run w) as (w2 & E2 & Hfl & Hal & _).
    rewrite E in E2.
    destruct (in_cases _ samx7x_table); [|discriminate].
    injection E2 as _ <-.
    rewrite (registered_flash_app _ _ _ Hfl).
    cbn [allocated]. rewrite Hheap by lia. cbn [app].
    unfold layout_ok. cbn. split; [exact I|lia].
Qed.

(** C5, as the code has it: a failed allocation while a region is built
    skips that region only, logs a warning and lets the probe go on, so
    that the regions registered are exactly the banks whose allocation
    succeeded; the result of the probe does not depend on them:
    [sam3x_probe] returns true exactly when it recognises the
    identification register, [samx7x_probe] exactly when it recognises it
    and the allocation of its private storage succeeds. *)
Theorem probe_result_ignores_regions (w : world) :
  (forall (eefc_base addr length : Z) (w0 : world),
     sam3_add_flash env eefc_base addr length w0 =
       (Some tt,
        if heap_ok env (allocs w0) then
          mk_world (mk_target (driver (tgt w0)) (ram (tgt w0))
                      (flash (tgt w0) ++ [sam3_region eefc_base addr length])
                      (commands (tgt w0)) (target_storage (tgt w0)))
                   (trace w0 ++ [ev_calloc true])
                   (reads w0) (checks w0) (S (allocs w0))
        else
          mk_world (tgt w0)
                   (trace w0 ++ [ev_calloc false;
                                 ev_debug_warn ("calloc: failed in %s" ++ LF)
                                               "sam3_add_flash"])
                   (reads w0) (checks w0) (S (allocs w0))) /\
     sam4_add_flash env eefc_base addr length w0 =
       (Some tt,
        if heap_ok env (allocs w0) then
          mk_world (mk_target (driver (tgt w0)) (ram (tgt w0))
                      (flash (tgt w0) ++ [sam4_region eefc_base addr length])
                      (commands (tgt w0)) (target_storage (tgt w0)))
                   (trace w0 ++ [ev_calloc true])
                   (reads w0) (checks w0) (S (allocs w0))
        else
          mk_world (tgt w0)
                   (trace w0 ++ [ev_calloc false;
                                 ev_debug_warn ("calloc: failed in %s" ++ LF)
                                               "sam4_add_flash"])
                   (reads w0) (checks w0) (S (allocs w0))))
  /\
  (exists w',
     sam3x_probe env w =
       (Some (match sam3x_probe_family env w with
              | Some _ => true
              | None => false
              end), w') /\
     registered_flash w w' =
       match sam3x_probe_family env w with
       | Some fam => allocated env (allocs w)
                       (banks fam (sam3x_probe_size env w))
       | None => []
       end)
  /\
  (exists w',
     samx7x_probe env w =
       (Some (in_cases (Z.land (cidr_sam3x env w) CHIPID_CIDR_ARCH_MASK)
                       samx7x_table
              && heap_ok env (S (allocs w))), w') /\
     registered_flash w w' =
       if in_cases (Z.land (cidr_sam3x env w) CHIPID_CIDR_ARCH_MASK)
                   samx7x_table
       then allocated env (allocs w)
              [sam4_region SAMX7X_EEFC_BASE 0x00400000
                           (flash_size (samx7x_probe_descr env w))]
       else []).
Proof.
  split; [|split].
  - intros eefc_base addr length w0. split.
    + apply sam3_add_flash_run.
    + apply sam4_add_flash_run.
  - destruct (sam3x_probe_run w) as (w' & E & Hfl & _ & _).
    exists w'. split; [exact E|].
    apply registered_flash_app. exact Hfl.
  - destruct (samx7x_probe_run w) as (w' & E & Hfl & _).
    exists w'. split; [exact E|].
    apply registered_flash_app. exact Hfl.
Qed.

Lemma in_cases_app (x : Z) (l1 l2 : list Z) :
  in_cases x (l1 ++ l2) = in_cases x l1 || in_cases x l2.
Proof. unfold in_cases. apply existsb_app. Qed.

Lemma nothing_registered (w w' : world) :
  tgt w' = tgt w ->
  registered_flash w w' = [] /\ registered_ram w w' = [] /\
  registered_commands w w' = [].
Proof.
  intros H. unfold registered_flash, registered_ram, registered_commands.
  rewrite H, !skipn_all. auto.
Qed.

(** C8: when the identification registers a probe reads carry no
    (architecture, processor) combination of its recognition table, the
    probe returns false and the session is what it was: no flash region,
    no RAM region and no command table has been registered, and nothing
    was allocated. *)
Theorem probe_unrecognised (w : world) :
  (in_cases (arch_eproc (cidr_sam3x env w)) (family_table SAM3X) = false ->
   in_cases (arch_eproc (cidr_sam34nsu env w))
            (family_table SAM3NS ++ family_table SAM3U ++ family_table SAM4S)
     = false ->
   exists w',
     sam3x_probe env w = (Some false, w') /\
     tgt w' = tgt w /\ allocs w' = allocs w /\
     registered_flash w w' = [] /\ registered_ram w w' = [] /\
     registered_commands w w' = [])
  /\
  (in_cases (Z.land (cidr_sam3x env w) CHIPID_CIDR_ARCH_MASK) samx7x_table
     = false ->
   exists w',
     samx7x_probe env w = (Some false, w') /\
     tgt w' = tgt w /\ allocs w' = allocs w /\
     registered_flash w w' = [] /\ registered_ram w w' = [] /\
     registered_commands w w' = []).
Proof.
  split.
  - intros H1 H2.
    rewrite !in_cases_app in H2.
    apply orb_false_elim in H2. destruct H2 as [Hns H2].
    apply orb_false_elim in H2. destruct H2 as [Hu H4].
    destruct (sam3x_probe_run w) as (w' & E & _ & _ & Hnone).
    unfold sam3x_probe_family in E, Hnone.
    rewrite H1, Hns, Hu, H4 in E, Hnone.
    specialize (Hnone eq_refl).
    exists w'. split; [exact E|].
    assert (Ht : tgt w' = tgt w) by (rewrite Hnone; reflexivity).
    split; [exact Ht|]. split; [rewrite Hnone; reflexivity|].
    apply nothing_registered. exact Ht.
  - intros H.
    destruct (samx7x_probe_run w) as (w' & E & _ & _ & Hnone).
    rewrite H in E. cbn [andb] in E.
    destruct (Hnone H) as (Ht & Ha & _).
    exists w'. split; [exact E|]. split; [exact Ht|]. split; [exact Ha|].
    apply nothing_registered. exact Ht.
Qed.

End Probing.

(** ** Worked examples *)

(** C1: the design document's reading fails on a SAM3X8E whose first
    bank cannot be allocated (one region of 256 KiB for a decoded size of
    512 KiB), on a SAM3X with an undefined size code (two empty regions
    at the same base address), and on a SAME70Q21 whose flash region
    cannot be allocated (no region for a decoded size of 2 MiB). *)
Lemma probe_layout_claim_fails :
  ~ probe_layout_claim (env_probe CIDR_SAM3X8E 0 heap_second_only) world0 /\
  ~ probe_layout_claim (env_probe CIDR_SAM3X_NOSIZE 0 heap_fine) world0 /\
  ~ probe_layout_claim (env_probe CIDR_SAME70Q21 2 heap_second_only) world0.
Proof.
  split; [|split].
  - intros [H _].
    specialize (H (snd (sam3x_probe (env_probe CIDR_SAM3X8E 0 heap_second_only)
                          world0)) eq_refl).
    destruct H as [_ H]. vm_compute in H. discriminate H.
  - intros [H _].
    specialize (H (snd (sam3x_probe (env_probe CIDR_SAM3X_NOSIZE 0 heap_fine)
                          world0)) eq_refl).
    destruct H as [[H _] _]. vm_compute in H. discriminate H.
  - intros [_ H].
    specialize (H (snd (samx7x_probe
                          (env_probe CIDR_SAME70Q21 2 heap_second_only)
                          world0)) eq_refl).
    destruct H as [_ H]. vm_compute in H. discriminate H.
Qed.

(** On the SAM3U line a decoded size of 512 KiB gets a second bank of
    512 KiB: the comparison that guards the second bank is [>=], where
    the comment above it speaks of larger devices. *)
Lemma sam3u_512k_registers_1m :
  sam3x_probe_family (env_probe CIDR_SAM3U_512K 0 heap_fine) world0
    = Some SAM3U /\
  sam3x_probe_size (env_probe CIDR_SAM3U_512K 0 heap_fine) world0 = 0x80000 /\
  total_length
    (registered_flash world0
       (snd (sam3x_probe (env_probe CIDR_SAM3U_512K 0 heap_fine) world0)))
    = 0x100000.
Proof. repeat split; vm_compute; reflexivity. Qed.

Lemma probe_layout_when_allocated_witness :
  layout_ok
    (registered_flash world0
       (snd (sam3x_probe (env_probe CIDR_SAM3X8E 0 heap_fine) world0)))
    (sam3x_probe_size (env_probe CIDR_SAM3X8E 0 heap_fine) world0) /\
  layout_ok
    (registered_flash world0
       (snd (samx7x_probe (env_probe CIDR_SAME70Q21 2 heap_fine) world0)))
    (flash_size (samx7x_probe_descr (env_probe CIDR_SAME70Q21 2 heap_fine)
                                    world0)).
Proof.
  split.
  - apply (proj1 (probe_layout_when_allocated
                    (env_probe CIDR_SAM3X8E 0 heap_fine) world0)).
    + reflexivity.
    + intros n Hn. reflexivity.
    + vm_compute. discriminate.
  - apply (proj2 (probe_layout_when_allocated
                    (env_probe CIDR_SAME70Q21 2 heap_fine) world0)).
    + reflexivity.
    + intros n Hn. reflexivity.
Defined.

(** C5: the design document's reading fails on a SAM4S16C probed with
    an exhausted heap (success with no region registered) and on a
    SAME70Q21 whose private storage cannot be allocated (failure with one
    region registered). *)
Lemma probe_success_iff_region_claim_fails :
  ~ probe_success_iff_region_claim
      (env_probe CIDR_SAM4S16C 0 heap_exhausted) world0 /\
  ~ probe_success_iff_region_claim
      (env_probe CIDR_SAME70Q21 2 heap_first_only) world0.
Proof.
  split.
  - intros [H _].
    specialize (H true (snd (sam3x_probe
                               (env_probe CIDR_SAM4S16C 0 heap_exhausted)
                               world0)) eq_refl).
    destruct H as [H _]. apply (H eq_refl). reflexivity.
  - intros [_ H].
    specialize (H false (snd (samx7x_probe
                                (env_probe CIDR_SAME70Q21 2 heap_first_only)
                                world0)) eq_refl).
    destruct H as [_ H].
    assert (E : false = true) by (apply H; vm_compute; discriminate).
    discriminate E.
Qed.

(** C6: the design document's reading of the last step of a write fails when
    the controller reports a command error: the sequencer returns the
    mask 2 and the write returns -1. *)
Lemma write_returns_sequencer_result_fails :
  ~ write_returns_sequencer_result env_cmd_error 1 bank_sam4 0x400200 [] 512
      world0.
Proof.
  intros H.
  specialize (H 2 (snd (sam3x_flash_cmd env_cmd_error 1 (eefc_base bank_sam4)
                          (write_cmd bank_sam4)
                          (write_chunk bank_sam4 0x400200)
                          (emit (ev_write 0x400200 [] 512) world0)))
                eq_refl).
  vm_compute in H. discriminate H.
Qed.

Lemma sam3x_flash_cmd_outcome_witness :
  fst (sam3x_flash_cmd env_link_lost 5 (SAM4S_EEFC_BASE 0)
         EEFC_FCR_FCMD_EPA 9 world0) = Some (-1) /\
  fst (sam3x_flash_cmd env_slow_cmd_error 5 (SAM4S_EEFC_BASE 0)
         EEFC_FCR_FCMD_EPA 9 world0) = Some 2.
Proof.
  split.
  - rewrite (proj1 (sam3x_flash_cmd_outcome env_link_lost 5 2
                      (SAM4S_EEFC_BASE 0) EEFC_FCR_FCMD_EPA 9 world0
                      ltac:(lia)
                      ltac:(intros [|[|k]] Hk;
                            [split; reflexivity | split; reflexivity | lia]))
                   eq_refl eq_refl).
    reflexivity.
  - rewrite (proj1 (proj2 (sam3x_flash_cmd_outcome env_slow_cmd_error 5 2
                             (SAM4S_EEFC_BASE 0) EEFC_FCR_FCMD_EPA 9 world0
                             ltac:(lia)
                             ltac:(intros [|[|k]] Hk;
                                   [split; reflexivity | split; reflexivity
                                    | lia]))
                          eq_refl)).
    reflexivity.
Defined.

Lemma sam3x_flash_cmd_word_witness :
  exists (pre : event) (rest : list event),
    trace (snd (sam3x_flash_cmd env_ready 3 (SAM4S_EEFC_BASE 0)
                  EEFC_FCR_FCMD_EPA 0x12345 world0)) =
      trace world0 ++ pre
        :: ev_write32 (EEFC_FCR (u32 (SAM4S_EEFC_BASE 0)))
             (Z.lor (Z.lor (Z.shiftl 0x5A 24) EEFC_FCR_FCMD_EPA)
                    (Z.shiftl (0x12345 mod 2 ^ 16) 8))
        :: rest /\
    writes32 [pre] = [] /\ writes32 rest = [] /\
    Z.shiftr (Z.lor (Z.lor (Z.shiftl 0x5A 24) EEFC_FCR_FCMD_EPA)
                    (Z.shiftl (0x12345 mod 2 ^ 16) 8)) 24 = 0x5A /\
    Z.land (Z.shiftr (Z.lor (Z.lor (Z.shiftl 0x5A 24) EEFC_FCR_FCMD_EPA)
                            (Z.shiftl (0x12345 mod 2 ^ 16) 8)) 8) 0xFFFF
      = 0x12345 mod 2 ^ 16 /\
    Z.land (Z.lor (Z.lor (Z.shiftl 0x5A 24) EEFC_FCR_FCMD_EPA)
                  (Z.shiftl (0x12345 mod 2 ^ 16) 8)) 0xFF
      = EEFC_FCR_FCMD_EPA.
Proof.
  apply (sam3x_flash_cmd_word env_ready 3 (SAM4S_EEFC_BASE 0)
           EEFC_FCR_FCMD_EPA 0x12345 world0).
  unfold EEFC_FCR_FCMD_EPA. lia.
Defined.


Lemma sam3x_flash_write_steps_witness :
  flash_write env_cmd_error 1 bank_sam4 0x400200 [] 512 world0 =
  match sam3x_flash_cmd env_cmd_error 1 (eefc_base bank_sam4)
          (write_cmd bank_sam4) (write_chunk bank_sam4 0x400200)
          (emit (ev_write 0x400200 [] 512) world0) with
  | (Some r, w2) => (Some (if r =? 0 then 0 else -1), w2)
  | (None, w2) => (None, w2)
  end.
Proof.
  apply (proj1 (sam3x_flash_write_steps env_cmd_error 1 bank_sam4
                  0x400200 [] 512 world0
                  ltac:(vm_compute; reflexivity))).
Defined.

Lemma sam3_flash_erase_noop_witness :
  flash_erase env_cmd_error 0 bank_sam3 0x80000 0x40000 world0
    = (Some 0, world0).
Proof.
  apply (proj1 (sam3_flash_erase_noop env_cmd_error 0 bank_sam3
                  0x80000 0x40000 world0 eq_refl)).
Defined.

Lemma probe_unrecognised_witness :
  (exists w',
     sam3x_probe (env_probe CIDR_UNKNOWN 0 heap_fine) world0
       = (Some false, w') /\
     tgt w' = tgt world0 /\ allocs w' = allocs world0 /\
     registered_flash world0 w' = [] /\ registered_ram world0 w' = [] /\
     registered_commands world0 w' = []) /\
  (exists w',
     samx7x_probe (env_probe CIDR_SAM4S16C 0 heap_fine) world0
       = (Some false, w') /\
     tgt w' = tgt world0 /\ allocs w' = allocs world0 /\
     registered_flash world0 w' = [] /\ registered_ram world0 w' = [] /\
     registered_commands world0 w' = []).
Proof.
  split.
  - apply (proj1 (probe_unrecognised (env_probe CIDR_UNKNOWN 0 heap_fine)
                    world0)); reflexivity.
  - apply (proj2 (probe_unrecognised (env_probe CIDR_SAM4S16C 0 heap_fine)
                    world0)); reflexivity.
Defined.

Lemma sam3x_cmd_gpnvm_set_usage_witness :
  sam3x_cmd_gpnvm_set env_ready atol_digit 3 2 ["gpnvm_set"; "1"]%string
    world0 =
  (Some false,
   emit (ev_tc_printf ("usage: monitor gpnvm_set <bit> <val>" ++ LF) [])
        world0).
Proof.
  apply (proj1 (sam3x_cmd_gpnvm_set_usage env_ready atol_digit 3 2
                  ["gpnvm_set"; "1"]%string world0
                  ltac:(intro H; discriminate H))).
Defined.

Lemma env_cmd_error_responsive (base : Z) : responsive env_cmd_error base 1.
Proof.
  intros r c. exists 0%nat. split; [lia|]. split.
  - intros k Hk. lia.
  - left. reflexivity.
Defined.

Lemma sam3x_cmd_gpnvm_ignores_result_witness :
  (exists w',
     sam3x_cmd_gpnvm_get env_cmd_error 1 1 ["gpnvm_get"]%string world0
       = (Some true, w')) /\
  (exists w',
     sam3x_cmd_gpnvm_set env_cmd_error atol_digit 1 3
       ["gpnvm_set"; "1"; "1"]%string world0 = (Some true, w')).
Proof.
  split.
  - apply (proj1 (proj2 (proj2 (sam3x_cmd_gpnvm_ignores_result
                                  env_cmd_error atol_digit 1 1
                                  ["gpnvm_get"]%string world0))
                   1%nat (env_cmd_error_responsive _) ltac:(lia))).
  - apply (proj2 (proj2 (proj2 (sam3x_cmd_gpnvm_ignores_result
                                  env_cmd_error atol_digit 1 3
                                  ["gpnvm_set"; "1"; "1"]%string world0))
                   1%nat (env_cmd_error_responsive _) ltac:(lia))
             eq_refl).
Defined.

(** * Further properties of the driver *)

(** ** Decoding the identification registers *)

(** Masking with a shifted mask reads the field at that position. *)
Lemma land_shifted_mask (x m k : Z) :
  0 <= k ->
  Z.land x (Z.shiftl m k) = Z.shiftl (Z.land (Z.shiftr x k) m) k.
Proof.
  intros Hk. apply Z.bits_inj'. intros n Hn.
  rewrite Z.land_spec.
  destruct (Z.ltb_spec n k) as [Hlt|Hge].
  - rewrite !Z.shiftl_spec_low by exact Hlt. apply Bool.andb_false_r.
  - rewrite !Z.shiftl_spec by exact Hn.
    rewrite Z.land_spec, Z.shiftr_spec by lia.
    replace (n - k + k) with n by lia. reflexivity.
Qed.

Lemma nibble_cases (x : Z) :
  In (Z.land x 0xF) [0; 1; 2; 3; 4; 5; 6; 7; 8; 9; 10; 11; 12; 13; 14; 15].
Proof.
  assert (E : Z.land x 0xF = x mod 16).
  { change 0xF with (Z.ones 4). rewrite Z.land_ones by lia. reflexivity. }
  rewrite E.
  pose proof (Z.mod_pos_bound x 16 ltac:(lia)) as H.
  cbn [In]. lia.
Qed.

(** [sam_flash_size] reads the 4-bit code in bits 8 to 11 of the register
    and nothing else: the nine defined codes give 8 KiB to 2 MiB, every
    other code gives 0. *)
Theorem sam_flash_size_decodes (cidr : Z) :
  sam_flash_size cidr = nvpsiz_bytes (Z.land (Z.shiftr cidr 8) 0xF).
Proof.
  unfold sam_flash_size, CHIPID_CIDR_NVPSIZ_MASK, CHIPID_CIDR_NVPSIZ_OFFSET.
  rewrite land_shifted_mask by lia.
  pose proof (nibble_cases (Z.shiftr cidr 8)) as H.
  remember (Z.land (Z.shiftr cidr 8) 0xF) as code eqn:E. clear E.
  cbn [In] in H.
  repeat (destruct H as [<-|H]; [reflexivity|]).
  contradiction.
Qed.

(** [sam_sram_size] reads the 4-bit code in bits 16 to 19: code 2 gives
    384 KiB, code 13 gives 256 KiB, every other code gives 0. *)
Theorem sam_sram_size_decodes (cidr : Z) :
  sam_sram_size cidr = sramsiz_bytes (Z.land (Z.shiftr cidr 16) 0xF).
Proof.
  unfold sam_sram_size, CHIPID_CIDR_SRAMSIZ_MASK, CHIPID_CIDR_SRAMSIZ_OFFSET.
  rewrite land_shifted_mask by lia.
  pose proof (nibble_cases (Z.shiftr cidr 16)) as H.
  remember (Z.land (Z.shiftr cidr 16) 0xF) as code eqn:E. clear E.
  cbn [In] in H.
  repeat (destruct H as [<-|H]; [reflexivity|]).
  contradiction.
Qed.

(** The fields of the descriptor, one by one. *)
Lemma parse_id_sizes (cidr exid : Z) :
  flash_size (samx7x_parse_id cidr exid) = sam_flash_size cidr /\
  ram_size (samx7x_parse_id cidr exid) = sam_sram_size cidr.
Proof.
  unfold samx7x_parse_id.
  repeat match goal with
         | |- context [if Z.land cidr CHIPID_CIDR_ARCH_MASK =? ?c then _ else _] =>
             destruct (Z.land cidr CHIPID_CIDR_ARCH_MASK =? c)
         end; split; reflexivity.
Qed.

Lemma parse_id_density (cidr exid : Z) :
  density (samx7x_parse_id cidr exid) =
  if sam_flash_size cidr =? 0x200000 then 21
  else if sam_flash_size cidr =? 0x100000 then 20
  else if sam_flash_size cidr =? 0x80000 then 19
  else 0.
Proof.
  unfold samx7x_parse_id.
  repeat match goal with
         | |- context [if Z.land cidr CHIPID_CIDR_ARCH_MASK =? ?c then _ else _] =>
             destruct (Z.land cidr CHIPID_CIDR_ARCH_MASK =? c)
         end; reflexivity.
Qed.

Lemma parse_id_revision_pins (cidr exid : Z) :
  revision (samx7x_parse_id cidr exid) =
    (if Z.land exid CHIPID_CIDR_VERSION_MASK =? 0 then "A"%char
     else if Z.land exid CHIPID_CIDR_VERSION_MASK =? 1 then "B"%char
     else "_"%char) /\
  pins (samx7x_parse_id cidr exid) =
    (if Z.land exid CHIPID_EXID_SAMX7X_PINS_MASK =? CHIPID_EXID_SAMX7X_PINS_Q
     then "Q"%char
     else if Z.land exid CHIPID_EXID_SAMX7X_PINS_MASK
             =? CHIPID_EXID_SAMX7X_PINS_N then "N"%char
     else if Z.land exid CHIPID_EXID_SAMX7X_PINS_MASK
             =? CHIPID_EXID_SAMX7X_PINS_J then "J"%char
     else zero).
Proof.
  unfold samx7x_parse_id.
  repeat match goal with
         | |- context [if Z.land cidr CHIPID_CIDR_ARCH_MASK =? ?c then _ else _] =>
             destruct (Z.land cidr CHIPID_CIDR_ARCH_MASK =? c)
         end; split; reflexivity.
Qed.

Lemma parse_id_product (cidr exid : Z) :
  (product_code (samx7x_parse_id cidr exid),
   product_id (samx7x_parse_id cidr exid)) =
  (if Z.land cidr CHIPID_CIDR_ARCH_MASK =? CHIPID_CIDR_ARCH_SAME70
   then ("E"%char, 70)
   else if Z.land cidr CHIPID_CIDR_ARCH_MASK =? CHIPID_CIDR_ARCH_SAMS70
   then ("S"%char, 70)
   else if Z.land cidr CHIPID_CIDR_ARCH_MASK =? CHIPID_CIDR_ARCH_SAMV71
   then ("V"%char, 71)
   else if Z.land cidr CHIPID_CIDR_ARCH_MASK =? CHIPID_CIDR_ARCH_SAMV70
   then ("V"%char, 70)
   else (zero, 0)).
Proof.
  unfold samx7x_parse_id.
  repeat match goal with
         | |- context [if Z.land cidr CHIPID_CIDR_ARCH_MASK =? ?c then _ else _] =>
             destruct (Z.land cidr CHIPID_CIDR_ARCH_MASK =? c)
         end; reflexivity.
Qed.

(** The density code of a descriptor is the binary logarithm of its flash
    size for 512 KiB, 1 MiB and 2 MiB, and 0 for every smaller size,
    undefined size codes included. *)
Theorem samx7x_density_matches_size (cidr exid : Z) :
  (density (samx7x_parse_id cidr exid) = 0 /\
   flash_size (samx7x_parse_id cidr exid) < 0x80000) \/
  (19 <= density (samx7x_parse_id cidr exid) <= 21 /\
   2 ^ density (samx7x_parse_id cidr exid)
     = flash_size (samx7x_parse_id cidr exid)).
Proof.
  rewrite parse_id_density, (proj1 (parse_id_sizes cidr exid)).
  pose proof (sam_flash_size_cases cidr) as H.
  remember (sam_flash_size cidr) as size eqn:E. clear E.
  cbn [In] in H.
  repeat (destruct H as [<-|H];
          [cbn; first [left; split; [reflexivity|lia]
                      | right; split; [lia|reflexivity]]|]).
  contradiction.
Qed.

(** The revision is decoded from the low five bits of the extended
    identification register, the pin count from its low two bits: the two
    fields overlap, so revision A only ever comes with pin code J,
    revision B with pin code N, and pin code Q (or an undefined pin code)
    with the unknown revision. *)
Theorem samx7x_revision_pins_overlap (cidr exid : Z) :
  (revision (samx7x_parse_id cidr exid) = "A"%char /\
   pins (samx7x_parse_id cidr exid) = "J"%char) \/
  (revision (samx7x_parse_id cidr exid) = "B"%char /\
   pins (samx7x_parse_id cidr exid) = "N"%char) \/
  (revision (samx7x_parse_id cidr exid) = "_"%char).
Proof.
  destruct (parse_id_revision_pins cidr exid) as [-> ->].
  assert (E : Z.land exid CHIPID_EXID_SAMX7X_PINS_MASK =
              Z.land (Z.land exid CHIPID_CIDR_VERSION_MASK) 3).
  { rewrite <- Z.land_assoc. reflexivity. }
  rewrite E.
  destruct (Z.eqb_spec (Z.land exid CHIPID_CIDR_VERSION_MASK) 0) as [->|_];
    [left; split; reflexivity|].
  destruct (Z.eqb_spec (Z.land exid CHIPID_CIDR_VERSION_MASK) 1) as [->|_];
    [right; left; split; reflexivity|].
  right; right; reflexivity.
Qed.

(** The architectures [samx7x_probe] accepts are exactly those for which
    [samx7x_parse_id] knows a product: E70, S70, V71 or V70; for every
    other architecture the product code is NUL and the product id 0. *)
Theorem samx7x_product_recognised (cidr exid : Z) :
  (in_cases (Z.land cidr CHIPID_CIDR_ARCH_MASK) samx7x_table = true /\
   In (product_code (samx7x_parse_id cidr exid),
       product_id (samx7x_parse_id cidr exid))
      [("E"%char, 70); ("S"%char, 70); ("V"%char, 71); ("V"%char, 70)]) \/
  (in_cases (Z.land cidr CHIPID_CIDR_ARCH_MASK) samx7x_table = false /\
   product_code (samx7x_parse_id cidr exid) = zero /\
   product_id (samx7x_parse_id cidr exid) = 0).
Proof.
  pose proof (parse_id_product cidr exid) as H.
  unfold in_cases, samx7x_table. cbn [existsb].
  destruct (Z.land cidr CHIPID_CIDR_ARCH_MASK =? CHIPID_CIDR_ARCH_SAME70);
    [left; split; [reflexivity|rewrite H; cbn [In]; auto]|].
  destruct (Z.land cidr CHIPID_CIDR_ARCH_MASK =? CHIPID_CIDR_ARCH_SAMS70);
    [left; split; [reflexivity|rewrite H; cbn [In]; auto]|].
  destruct (Z.land cidr CHIPID_CIDR_ARCH_MASK =? CHIPID_CIDR_ARCH_SAMV71);
    [left; split; [reflexivity|rewrite H; cbn [In]; auto]|].
  destruct (Z.land cidr CHIPID_CIDR_ARCH_MASK =? CHIPID_CIDR_ARCH_SAMV70);
    [left; split; [reflexivity|rewrite H; cbn [In]; auto 6]|].
  right. injection H as -> ->. auto.
Qed.

Lemma c_str_length (s : string) :
  (String.length (c_str s) <= String.length s)%nat.
Proof.
  induction s as [|c s IH]; cbn [c_str String.length]; [lia|].
  destruct (Ascii.eqb c zero); cbn [String.length]; lia.
Qed.

Lemma string_length_app (s1 s2 : string) :
  String.length (s1 ++ s2) = (String.length s1 + String.length s2)%nat.
Proof.
  induction s1 as [|c s1 IH]; cbn [append String.length Nat.add];
    [reflexivity|]. rewrite IH. reflexivity.
Qed.

Lemma samx7x_product_cases (cidr exid : Z) :
  product_id (samx7x_parse_id cidr exid) = 0 \/
  product_id (samx7x_parse_id cidr exid) = 70 \/
  product_id (samx7x_parse_id cidr exid) = 71.
Proof.
  pose proof (parse_id_product cidr exid) as H.
  repeat match type of H with
         | context [if ?c then _ else _] => destruct c
         end; injection H as _ ->; auto.
Qed.

(** Whatever the two identification registers hold, [sprintf] writes nine
    or ten characters for the variant label, so the label and its
    terminating NUL fit the 60-byte buffer [sam_variant_string]. *)
Theorem sprintf_variant_fits (cidr exid : Z) :
  (9 <= String.length (variant_chars (samx7x_parse_id cidr exid)) <= 10)%nat /\
  sprintf_variant (samx7x_parse_id cidr exid)
    = c_str (variant_chars (samx7x_parse_id cidr exid)) /\
  (String.length (sprintf_variant (samx7x_parse_id cidr exid)) + 1
     <= SAM_VARIANT_STRING_SIZE)%nat.
Proof.
  assert (Hlen : (9 <= String.length
                         (variant_chars (samx7x_parse_id cidr exid))
                    <= 10)%nat).
  { assert (Hid : In (product_id (samx7x_parse_id cidr exid)) [0; 70; 71]).
    { destruct (samx7x_product_cases cidr exid) as [H|[H|H]];
        rewrite H; cbn [In]; auto. }
    assert (Hden : In (density (samx7x_parse_id cidr exid)) [0; 19; 20; 21]).
    { rewrite parse_id_density.
      repeat match goal with
             | |- context [if ?c then _ else _] => destruct c
             end; cbn [In]; auto. }
    unfold variant_chars. rewrite !string_length_app.
    cbn [In] in Hid, Hden.
    destruct Hid as [<-|[<-|[<-|[]]]];
      destruct Hden as [<-|[<-|[<-|[<-|[]]]]];
      cbn; lia. }
  split; [exact Hlen|]. split; [reflexivity|].
  pose proof (c_str_length (variant_chars (samx7x_parse_id cidr exid))) as H.
  change (sprintf_variant (samx7x_parse_id cidr exid))
    with (c_str (variant_chars (samx7x_parse_id cidr exid))).
  unfold SAM_VARIANT_STRING_SIZE. lia.
Qed.

(** ** What the sequencer returns and touches *)

Section SequencerFacts.

Variable env : oracle.

Lemma land_6_cases (x : Z) : In (Z.land x 6) [0; 2; 4; 6].
Proof.
  assert (E : Z.land x 6 = Z.land (x mod 8) 6).
  { replace (x mod 8) with (Z.land x (Z.ones 3))
      by (rewrite Z.land_ones by lia; reflexivity).
    rewrite <- Z.land_assoc. reflexivity. }
  rewrite E.
  pose proof (Z.mod_pos_bound x 8 ltac:(lia)) as H.
  assert (C : x mod 8 = 0 \/ x mod 8 = 1 \/ x mod 8 = 2 \/ x mod 8 = 3 \/
              x mod 8 = 4 \/ x mod 8 = 5 \/ x mod 8 = 6 \/ x mod 8 = 7)
    by lia.
  cbn [In].
  repeat (destruct C as [->|C]; [cbn; auto 6|]).
  rewrite C. cbn. auto 6.
Qed.

(** The only value the polling loop returns from inside is -1. *)
Lemma poll_early_value (fuel : nat) :
  forall (base : Z) (w : world) (x : Z) (w' : world),
  sam3x_flash_cmd_poll env fuel (u32 base) w = (Some (Some x), w') ->
  x = -1.
Proof.
  induction fuel as [|fuel IH]; intros base w x w' H.
  - discriminate H.
  - rewrite poll_step in H. cbv zeta in H.
    destruct (ready _); [discriminate H|].
    destruct (link_error env (checks w)).
    + injection H as <- _. reflexivity.
    + eapply IH. exact H.
Qed.

(** A call of the sequencer that returns, returns -1 or one of the four
    values of the error mask: 0, 2 (command error), 4 (lock error) or 6
    (both). *)
Theorem sam3x_flash_cmd_result_values (fuel : nat) (base cmd arg : Z)
    (w : world) (r : Z) (w' : world) :
  sam3x_flash_cmd env fuel base cmd arg w = (Some r, w') ->
  In r [-1; 0; 2; 4; 6].
Proof.
  rewrite sam3x_flash_cmd_unfold. cbv zeta. intros H.
  destruct (sam3x_flash_cmd_poll env fuel (u32 base) _)
    as [[[x|]|] w2] eqn:E.
  - apply poll_early_value in E. injection H as <- _. subst x.
    cbn [In]. auto.
  - injection H as <- _. right.
    apply (land_6_cases (status env base (reads w2))).
  - discriminate H.
Qed.

(** The polling loop reads the status register of its controller and
    queries the transport-error signal, nothing else. *)
Lemma poll_confined (fuel : nat) :
  forall (base : Z) (w : world) (r : option (option Z)) (w' : world),
  sam3x_flash_cmd_poll env fuel (u32 base) w = (r, w') ->
  exists evs,
    trace w' = trace w ++ evs /\
    forallb (sequencer_event base) evs = true /\
    writes32 evs = [].
Proof.
  induction fuel as [|fuel IH]; intros base w r w' H.
  - injection H as <- <-. exists []. rewrite app_nil_r. auto.
  - rewrite poll_step in H. cbv zeta in H.
    destruct (ready _).
    + injection H as <- <-. eexists [_]. split; [reflexivity|].
      cbn. rewrite Z.eqb_refl. auto.
    + destruct (link_error env (checks w)).
      * injection H as <- <-. eexists [_; _]. split; [reflexivity|].
        cbn. rewrite Z.eqb_refl. auto.
      * apply IH in H. destruct H as (evs & Ht & Hf & Hw).
        cbn [trace] in Ht.
        eexists (_ :: _ :: evs). rewrite Ht, <- app_assoc.
        split; [reflexivity|].
        cbn [forallb sequencer_event writes32 flat_map app].
        rewrite Z.eqb_refl, Hf. split; [reflexivity|exact Hw].
Qed.

(** A call of the sequencer touches two registers only: it writes once,
    to the command register of its controller, and every read it makes is
    of the status register of that controller; it leaves the session and
    the heap alone. *)
Theorem sam3x_flash_cmd_confined (fuel : nat) (base cmd arg : Z)
    (w : world) (r : option Z) (w' : world) :
  sam3x_flash_cmd env fuel base cmd arg w = (r, w') ->
  forallb (sequencer_event base) (new_events w w') = true /\
  List.length (writes32 (new_events w w')) = 1%nat /\
  bulk_writes (new_events w w') = [] /\
  tgt w' = tgt w /\ allocs w' = allocs w.
Proof.
  intros H.
  destruct (sam3x_flash_cmd_frame env fuel base cmd arg w r w' H)
    as (rest & Ht & Hw & Hb & Htg & Hal).
  rewrite (new_events_app w w' _ Ht).
  split; [|unfold writes32, bulk_writes in *;
           rewrite !flat_map_app, Hw, Hb; auto].
  rewrite sam3x_flash_cmd_unfold in H. cbv zeta in H.
  destruct (sam3x_flash_cmd_poll env fuel (u32 base) _)
    as [o w2] eqn:E.
  apply poll_confined in E. destruct E as (evs & Ht2 & Hf & _).
  cbn [trace] in Ht2.
  assert (Hrest : rest = evs \/
                  exists e, rest = evs ++ [e] /\ sequencer_event base e = true).
  { destruct o as [[x|]|]; injection H as _ <-.
    - left. rewrite Ht2, <- app_assoc in Ht.
      apply app_inv_head in Ht. apply app_inv_head in Ht. auto.
    - right. eexists. cbn [trace] in Ht.
      rewrite Ht2, <- !app_assoc in Ht.
      apply app_inv_head in Ht. apply app_inv_head in Ht.
      split; [symmetry; exact Ht|]. cbn. apply Z.eqb_refl.
    - left. rewrite Ht2, <- app_assoc in Ht.
      apply app_inv_head in Ht. apply app_inv_head in Ht. auto. }
  rewrite forallb_app.
  assert (Hi : forallb (sequencer_event base) (issue_events base cmd arg)
               = true).
  { cbn. rewrite Z.eqb_refl. reflexivity. }
  rewrite Hi. cbn [andb].
  destruct Hrest as [->|(e & -> & He)]; [exact Hf|].
  rewrite forallb_app, Hf. cbn. rewrite He. reflexivity.
Qed.

End SequencerFacts.

(** ** What the probes leave behind *)

Section ProbeFacts.

Variable env : oracle.

Ltac session_simpl :=
  cbn [tgt trace reads checks allocs driver ram flash commands
       target_storage app].

Ltac session_done :=
  eexists; eexists; split; [reflexivity|];
  split; [rewrite <- ?app_assoc; cbn [app]; reflexivity|];
  repeat split; session_simpl; try reflexivity; try lia.

(** The session and the trace [sam3x_probe] leaves. *)
Lemma sam3x_probe_session (w : world) :
  exists w' evs,
    sam3x_probe env w =
      (Some (match sam3x_probe_family env w with
             | Some _ => true
             | None => false
             end), w') /\
    trace w' = trace w ++ evs /\
    forallb probe_event evs = true /\
    writes32 evs = [] /\ bulk_writes evs = [] /\
    checks w' = checks w /\
    reads w' = (if in_cases (arch_eproc (cidr_sam3x env w))
                             (family_table SAM3X)
                then S (reads w) else S (S (reads w))) /\
    (allocs w' <= allocs w + 2)%nat /\
    match sam3x_probe_family env w with
    | Some fam =>
        driver (tgt w') = family_label fam /\
        ram (tgt w') =
          ram (tgt w) ++ [mk_target_ram 0x20000000 (family_ram_length fam)] /\
        commands (tgt w') =
          commands (tgt w) ++ [(family_command_name fam, sam3x_cmd_list)] /\
        target_storage (tgt w') = target_storage (tgt w)
    | None => True
    end.
Proof.
  unfold sam3x_probe, sam3x_probe_family.
  unfold bind at 1, target_mem_read32 at 1.
  fold (cidr_sam3x env w). fold (arch_eproc (cidr_sam3x env w)).
  change [Z.lor CHIPID_CIDR_ARCH_SAM3XxC CHIPID_CIDR_EPROC_CM3;
          Z.lor CHIPID_CIDR_ARCH_SAM3XxE CHIPID_CIDR_EPROC_CM3;
          Z.lor CHIPID_CIDR_ARCH_SAM3XxG CHIPID_CIDR_EPROC_CM3]
    with (family_table SAM3X).
  destruct (in_cases (arch_eproc (cidr_sam3x env w)) (family_table SAM3X)).
  - unfold bind, set_driver, target_add_ram, target_add_commands, ret, set_tgt.
    rewrite !sam3_add_flash_run. session_simpl.
    destruct (heap_ok env (allocs w)); session_simpl;
      destruct (heap_ok env (S (allocs w))); session_simpl; session_done.
  - unfold bind at 1, target_mem_read32 at 1.
    cbn [tgt trace reads checks allocs].
    fold (cidr_sam34nsu env w). fold (arch_eproc (cidr_sam34nsu env w)).
    change [Z.lor CHIPID_CIDR_ARCH_SAM3NxA CHIPID_CIDR_EPROC_CM3;
            Z.lor CHIPID_CIDR_ARCH_SAM3NxB CHIPID_CIDR_EPROC_CM3;
            Z.lor CHIPID_CIDR_ARCH_SAM3NxC CHIPID_CIDR_EPROC_CM3;
            Z.lor CHIPID_CIDR_ARCH_SAM3SxA CHIPID_CIDR_EPROC_CM3;
            Z.lor CHIPID_CIDR_ARCH_SAM3SxB CHIPID_CIDR_EPROC_CM3;
            Z.lor CHIPID_CIDR_ARCH_SAM3SxC CHIPID_CIDR_EPROC_CM3]
      with (family_table SAM3NS).
    change [Z.lor CHIPID_CIDR_ARCH_SAM3UxC CHIPID_CIDR_EPROC_CM3;
            Z.lor CHIPID_CIDR_ARCH_SAM3UxE CHIPID_CIDR_EPROC_CM3]
      with (family_table SAM3U).
    change [Z.lor CHIPID_CIDR_ARCH_SAM4SxA CHIPID_CIDR_EPROC_CM4;
            Z.lor CHIPID_CIDR_ARCH_SAM4SxB CHIPID_CIDR_EPROC_CM4;
            Z.lor CHIPID_CIDR_ARCH_SAM4SxC CHIPID_CIDR_EPROC_CM4;
            Z.lor CHIPID_CIDR_ARCH_SAM4SDB CHIPID_CIDR_EPROC_CM4;
            Z.lor CHIPID_CIDR_ARCH_SAM4SDC CHIPID_CIDR_EPROC_CM4]
      with (family_table SAM4S).
    destruct (in_cases (arch_eproc (cidr_sam34nsu env w)) (family_table SAM3NS));
      [|destruct (in_cases (arch_eproc (cidr_sam34nsu env w))
                   (family_table SAM3U));
        [|destruct (in_cases (arch_eproc (cidr_sam34nsu env w))
                     (family_table SAM4S))]].
    + unfold bind, set_driver, target_add_ram, target_add_commands, ret,
        set_tgt.
      rewrite !sam3_add_flash_run. session_simpl.
      destruct (heap_ok env (allocs w)); session_simpl; session_done.
    + unfold bind, set_driver, target_add_ram, target_add_commands, ret,
        set_tgt.
      destruct (sam_flash_size (cidr_sam34nsu env w) >=? 524288);
        rewrite !sam3_add_flash_run; session_simpl;
        destruct (heap_ok env (allocs w)); session_simpl;
        try destruct (heap_ok env (S (allocs w))); session_simpl;
        session_done.
    + unfold bind, set_driver, target_add_ram, target_add_commands, ret,
        set_tgt.
      destruct (sam_flash_size (cidr_sam34nsu env w) <=? 524288);
        unfold bind; rewrite !sam4_add_flash_run; session_simpl;
        destruct (heap_ok env (allocs w)); session_simpl;
        try destruct (heap_ok env (S (allocs w))); session_simpl;
        session_done.
    + unfold ret. session_done.
Qed.

(** The session and the trace [samx7x_probe] leaves. *)
Lemma samx7x_probe_session (w : world) :
  exists w' evs,
    samx7x_probe env w =
      (Some (in_cases (Z.land (cidr_sam3x env w) CHIPID_CIDR_ARCH_MASK)
                      samx7x_table
             && heap_ok env (S (allocs w))), w') /\
    trace w' = trace w ++ evs /\
    forallb probe_event evs = true /\
    writes32 evs = [] /\ bulk_writes evs = [] /\
    checks w' = checks w /\
    reads w' = (if Z.land (cidr_sam3x env w) CHIPID_CIDR_EXT =? 0
                then S (reads w) else S (S (reads w))) /\
    (allocs w' <= allocs w + 2)%nat /\
    if in_cases (Z.land (cidr_sam3x env w) CHIPID_CIDR_ARCH_MASK) samx7x_table
    then
      ram (tgt w') =
        ram (tgt w) ++
        [mk_target_ram 0x20400000 (ram_size (samx7x_probe_descr env w))] /\
      commands (tgt w') = commands (tgt w) ++ [("SAMX7X"%string, sam3x_cmd_list)] /\
      if heap_ok env (S (allocs w))
      then driver (tgt w') = sprintf_variant (samx7x_probe_descr env w) /\
           target_storage (tgt w') =
             Some (mk_sam_priv (sprintf_variant (samx7x_probe_descr env w)))
      else driver (tgt w') = driver (tgt w) /\
           target_storage (tgt w') = target_storage (tgt w)
    else tgt w' = tgt w.
Proof.
  unfold samx7x_probe, samx7x_probe_descr, exid_samx7x.
  unfold bind at 1, target_mem_read32 at 1.
  fold (cidr_sam3x env w).
  change [CHIPID_CIDR_ARCH_SAME70; CHIPID_CIDR_ARCH_SAMS70;
          CHIPID_CIDR_ARCH_SAMV71; CHIPID_CIDR_ARCH_SAMV70]
    with samx7x_table.
  destruct (Z.land (cidr_sam3x env w) CHIPID_CIDR_EXT =? 0);
    [unfold bind at 1, ret at 1 | unfold bind at 1, target_mem_read32 at 1];
    cbn [tgt trace reads checks allocs];
    destruct (in_cases (Z.land (cidr_sam3x env w) CHIPID_CIDR_ARCH_MASK)
                       samx7x_table);
    cbn [negb andb].
  1, 3: unfold bind, target_add_ram, target_add_commands, ret,
          calloc, set_target_storage, set_driver, DEBUG_WARN, emit, set_tgt;
        rewrite !sam4_add_flash_run; session_simpl;
        destruct (heap_ok env (allocs w)); session_simpl;
        destruct (heap_ok env (S (allocs w))); cbn [negb]; session_simpl;
        session_done.
  all: unfold ret; session_done.
Qed.

(** Probing only reads: whatever the device answers and whatever the
    allocator does, [sam3x_probe] and [samx7x_probe] put nothing on the
    link but reads of the identification registers, one or two of them,
    and never query the transport-error signal.  [sam3x_probe] reads the
    second identification register exactly when the first is not of the
    SAM3X line, [samx7x_probe] reads the extended register exactly when
    the EXT bit of the first is set. *)
Theorem probes_only_read (w : world) :
  (forallb probe_event (new_events w (snd (sam3x_probe env w))) = true /\
   writes32 (new_events w (snd (sam3x_probe env w))) = [] /\
   bulk_writes (new_events w (snd (sam3x_probe env w))) = [] /\
   checks (snd (sam3x_probe env w)) = checks w /\
   reads (snd (sam3x_probe env w)) =
     if in_cases (arch_eproc (cidr_sam3x env w)) (family_table SAM3X)
     then S (reads w) else S (S (reads w))) /\
  (forallb probe_event (new_events w (snd (samx7x_probe env w))) = true /\
   writes32 (new_events w (snd (samx7x_probe env w))) = [] /\
   bulk_writes (new_events w (snd (samx7x_probe env w))) = [] /\
   checks (snd (samx7x_probe env w)) = checks w /\
   reads (snd (samx7x_probe env w)) =
     if Z.land (cidr_sam3x env w) CHIPID_CIDR_EXT =? 0
     then S (reads w) else S (S (reads w))).
Proof.
  split.
  - destruct (sam3x_probe_session w)
      as (w' & evs & E & Ht & Hf & Hw & Hb & Hc & Hr & _).
    rewrite E. cbn [snd]. rewrite (new_events_app w w' evs Ht). auto.
  - destruct (samx7x_probe_session w)
      as (w' & evs & E & Ht & Hf & Hw & Hb & Hc & Hr & _).
    rewrite E. cbn [snd]. rewrite (new_events_app w w' evs Ht). auto.
Qed.

Lemma registered_ram_app (w w' : world) (l : list target_ram) :
  ram (tgt w') = ram (tgt w) ++ l -> registered_ram w w' = l.
Proof.
  intros H. unfold registered_ram. rewrite H.
  rewrite skipn_app, skipn_all, Nat.sub_diag. reflexivity.
Qed.

Lemma registered_commands_app (w w' : world)
    (l : list (string * list command_s)) :
  commands (tgt w') = commands (tgt w) ++ l -> registered_commands w w' = l.
Proof.
  intros H. unfold registered_commands. rewrite H.
  rewrite skipn_app, skipn_all, Nat.sub_diag. reflexivity.
Qed.

(** On each line it recognises, [sam3x_probe] labels the session so that
    the GPNVM commands address the controller of the first bank it asked
    for; it registers one RAM region at 0x20000000 whose length is fixed
    by the line (2 MiB, 4 MiB on the SAM4S line) and not decoded from the
    device, and one command table. *)
Theorem sam3x_probe_monitor_base (w : world) :
  match sam3x_probe_family env w with
  | Some fam =>
      fst (sam3x_probe env w) = Some true /\
      driver (tgt (snd (sam3x_probe env w))) = family_label fam /\
      sam3x_flash_base (tgt (snd (sam3x_probe env w))) = family_eefc_base fam /\
      option_map eefc_base
        (hd_error (banks fam (sam3x_probe_size env w)))
        = Some (family_eefc_base fam) /\
      registered_ram w (snd (sam3x_probe env w)) =
        [mk_target_ram 0x20000000 (family_ram_length fam)] /\
      registered_commands w (snd (sam3x_probe env w)) =
        [(family_command_name fam, sam3x_cmd_list)] /\
      target_storage (tgt (snd (sam3x_probe env w))) = target_storage (tgt w)
  | None => fst (sam3x_probe env w) = Some false
  end.
Proof.
  destruct (sam3x_probe_session w)
    as (w' & evs & E & _ & _ & _ & _ & _ & _ & _ & H).
  rewrite E. cbn [fst snd].
  destruct (sam3x_probe_family env w) as [fam|]; [|reflexivity].
  destruct H as (Hd & Hr & Hc & Hs).
  split; [reflexivity|]. split; [exact Hd|].
  split; [unfold sam3x_flash_base; rewrite Hd; destruct fam; reflexivity|].
  split.
  { destruct fam; cbn [banks]; try reflexivity.
    destruct (sam3x_probe_size env w <=? 524288); reflexivity. }
  split; [apply registered_ram_app; exact Hr|].
  split; [apply registered_commands_app; exact Hc|exact Hs].
Qed.

Lemma c_str_SAM (rest : string) :
  exists tail, c_str ("SAM" ++ rest) = ("SAM" ++ tail)%string.
Proof. exists (c_str rest). reflexivity. Qed.

(** On a device it recognises, [samx7x_probe] registers one RAM region at
    0x20400000 of the decoded RAM size and one command table before it
    allocates its private storage.  When that allocation succeeds the
    probe returns true, the variant label becomes the session label and
    the GPNVM commands address the SAMx7x controller; when it fails the
    probe returns false with the RAM region and the command table still
    registered and the label untouched. *)
Theorem samx7x_probe_outcomes (w : world) :
  in_cases (Z.land (cidr_sam3x env w) CHIPID_CIDR_ARCH_MASK) samx7x_table
    = true ->
  registered_ram w (snd (samx7x_probe env w)) =
    [mk_target_ram 0x20400000 (sam_sram_size (cidr_sam3x env w))] /\
  registered_commands w (snd (samx7x_probe env w)) =
    [("SAMX7X"%string, sam3x_cmd_list)] /\
  if heap_ok env (S (allocs w))
  then fst (samx7x_probe env w) = Some true /\
       driver (tgt (snd (samx7x_probe env w)))
         = sprintf_variant (samx7x_probe_descr env w) /\
       target_storage (tgt (snd (samx7x_probe env w)))
         = Some (mk_sam_priv (sprintf_variant (samx7x_probe_descr env w))) /\
       sam3x_flash_base (tgt (snd (samx7x_probe env w))) = SAMX7X_EEFC_BASE
  else fst (samx7x_probe env w) = Some false /\
       driver (tgt (snd (samx7x_probe env w))) = driver (tgt w) /\
       target_storage (tgt (snd (samx7x_probe env w)))
         = target_storage (tgt w).
Proof.
  intros Hrec.
  destruct (samx7x_probe_session w)
    as (w' & evs & E & _ & _ & _ & _ & _ & _ & _ & H).
  rewrite E, Hrec in *. cbn [fst snd andb].
  destruct H as (Hr & Hc & H).
  unfold samx7x_probe_descr in Hr at 1.
  rewrite (proj2 (parse_id_sizes _ _)) in Hr.
  split; [apply registered_ram_app; exact Hr|].
  split; [apply registered_commands_app; exact Hc|].
  destruct (heap_ok env (S (allocs w))).
  - destruct H as [Hd Hs]. repeat split; try assumption.
    unfold sam3x_flash_base. rewrite Hd.
    unfold sprintf_variant.
    destruct (c_str_SAM (fmt_c (product_code (samx7x_probe_descr env w))
                ++ fmt_02d (product_id (samx7x_probe_descr env w))
                ++ fmt_c (pins (samx7x_probe_descr env w))
                ++ fmt_d (density (samx7x_probe_descr env w))
                ++ fmt_c (revision (samx7x_probe_descr env w))))
      as (tail & ->).
    reflexivity.
  - destruct H as [Hd Hs]. auto.
Qed.

Lemma allocated_incl (a : nat) (l : list sam_flash) (r : sam_flash) :
  In r (allocated env a l) -> In r l.
Proof.
  revert a. induction l as [|x xs IH]; intros a H; [exact H|].
  cbn [allocated] in H. apply in_app_or in H. destruct H as [H|H].
  - destruct (heap_ok env a); [|contradiction].
    destruct H as [<-|[]]. left. reflexivity.
  - right. eapply IH. exact H.
Qed.

Ltac region_ok_done :=
  unfold region_ok, sam3_region, sam4_region;
  cbn [f f_start f_length f_blocksize f_buf_size f_erase f_write
       eefc_base write_cmd];
  repeat split; try reflexivity; try (cbv; discriminate);
  first [left; repeat split; reflexivity
        | right; repeat split; reflexivity].

Lemma banks_ok (fam : family) (cidr : Z) (r : sam_flash) :
  In r (banks fam (sam_flash_size cidr)) -> region_ok r.
Proof.
  pose proof (sam_flash_size_cases cidr) as Hin.
  remember (sam_flash_size cidr) as size eqn:E. clear E.
  cbn [In] in Hin.
  repeat (destruct Hin as [<-|Hin];
          [destruct fam; cbn; intros H;
           repeat (destruct H as [<-|H]; [region_ok_done|]);
           contradiction|]).
  contradiction.
Qed.

Lemma samx7x_bank_ok (cidr : Z) :
  region_ok (sam4_region SAMX7X_EEFC_BASE 0x00400000 (sam_flash_size cidr)).
Proof.
  pose proof (sam_flash_size_cases cidr) as Hin.
  remember (sam_flash_size cidr) as size eqn:E. clear E.
  cbn [In] in Hin.
  repeat (destruct Hin as [<-|Hin]; [region_ok_done|]).
  contradiction.
Qed.

(** Every flash region a probe registers is one the erase and write
    routines can work on: at most 2 MiB long, a whole number of erase
    blocks, and either without an erase routine but written with the
    erase-and-write command, or with the page-erase routine and written
    with the plain write command. *)
Theorem probed_regions_ok (w : world) (r : sam_flash) :
  In r (registered_flash w (snd (sam3x_probe env w))) \/
  In r (registered_flash w (snd (samx7x_probe env w))) ->
  region_ok r.
Proof.
  intros [H|H].
  - destruct (sam3x_probe_run env w) as (w' & E & Hfl & _).
    rewrite E in H. cbn [snd] in H.
    rewrite (registered_flash_app _ _ _ Hfl) in H.
    destruct (sam3x_probe_family env w) as [fam|]; [|contradiction].
    apply allocated_incl in H. unfold sam3x_probe_size in H.
    destruct (in_cases _ (family_table SAM3X)); eapply banks_ok; exact H.
  - destruct (samx7x_probe_run env w) as (w' & E & Hfl & _).
    rewrite E in H. cbn [snd] in H.
    rewrite (registered_flash_app _ _ _ Hfl) in H.
    destruct (in_cases _ samx7x_table); [|contradiction].
    apply allocated_incl in H. destruct H as [<-|[]].
    unfold samx7x_probe_descr. rewrite (proj1 (parse_id_sizes _ _)).
    apply samx7x_bank_ok.
Qed.

End ProbeFacts.

(** ** Writing and erasing inside a probed region *)

Section RegionFacts.

Variable env : oracle.

Lemma u16_small (x : Z) : 0 <= x < 2 ^ 16 -> u16 x = x.
Proof. intros H. unfold u16. apply Z.mod_small. exact H. Qed.

Lemma u16_u32 (x : Z) : u16 (u32 x) = u16 x.
Proof.
  unfold u16, u32. apply Z.mod_mod_divide.
  exists (2 ^ 16). reflexivity.
Qed.

Lemma region_ok_buf_size (r : sam_flash) :
  region_ok r -> f_buf_size (f r) = 256 \/ f_buf_size (f r) = 512.
Proof.
  intros (_ & _ & _ & _ & _ & [(_ & _ & H & _)|(_ & _ & H & _)]);
    rewrite H; auto.
Qed.

Lemma region_ok_write_cmd (r : sam_flash) :
  region_ok r -> 0 <= write_cmd r < 2 ^ 8.
Proof.
  intros (_ & _ & _ & _ & _ & [(_ & H & _)|(_ & H & _)]);
    rewrite H; unfold EEFC_FCR_FCMD_EWP, EEFC_FCR_FCMD_WP; lia.
Qed.

(** A write to a destination inside a probed region issues the region's
    write command with the exact page index [(dest - start) / buf_size]:
    the index is below 8192, so neither the 32-bit subtraction nor the
    16-bit argument of the sequencer changes it. *)
Theorem sam3x_flash_write_in_range (fuel : nat) (r : sam_flash) (dest : Z)
    (src : list Z) (len : Z) (w : world) (res : option Z) (w' : world) :
  region_ok r ->
  f_start (f r) <= dest < f_start (f r) + f_length (f r) ->
  flash_write env fuel r dest src len w = (res, w') ->
  0 <= (dest - f_start (f r)) / f_buf_size (f r) < 8192 /\
  writes32 (new_events w w') =
    [(EEFC_FCR (u32 (eefc_base r)),
      Z.lor (Z.lor (Z.shiftl 0x5A 24) (write_cmd r))
            (Z.shiftl ((dest - f_start (f r)) / f_buf_size (f r)) 8))] /\
  bulk_writes (new_events w w') = [(dest, src, len)].
Proof.
  intros Hok Hdest H.
  pose proof (region_ok_buf_size r Hok) as Hbuf.
  pose proof (region_ok_write_cmd r Hok) as Hcmd.
  destruct Hok as ((Hl0 & Hl1) & _ & _ & Hs0 & Hs1 & _).
  assert (Hidx : 0 <= (dest - f_start (f r)) / f_buf_size (f r) < 8192).
  { split.
    - apply Z.div_pos; lia.
    - apply Z.div_lt_upper_bound; lia. }
  split; [exact Hidx|].
  rewrite sam3x_flash_write_unfold in H by lia.
  assert (Hchunk : write_chunk r dest
                   = (dest - f_start (f r)) / f_buf_size (f r)).
  { unfold write_chunk. rewrite u32_small by lia. reflexivity. }
  destruct (sam3x_flash_cmd env fuel (eefc_base r) (write_cmd r)
              (write_chunk r dest) (emit (ev_write dest src len) w))
    as [r1 w1] eqn:E.
  apply sam3x_flash_cmd_frame in E.
  destruct E as (rest & Ht & Hw & Hb & _).
  assert (w' = w1) as -> by (destruct r1; congruence).
  cbn [emit trace] in Ht. rewrite <- app_assoc in Ht. cbn [app] in Ht.
  rewrite (new_events_app _ _ _ Ht).
  unfold writes32, bulk_writes in *.
  cbn [flat_map issue_events app]. rewrite Hw, Hb.
  unfold command_word.
  rewrite (u8_small _ Hcmd), Hchunk, u16_small by lia.
  auto.
Qed.

Lemma issue_page_erases_first (fuel : nat) (base p : Z) (ps : list Z)
    (w : world) (res : option Z) (w' : world) :
  issue_page_erases env fuel base (p :: ps) w = (res, w') ->
  exists rest,
    writes32 (new_events w w') =
      (EEFC_FCR (u32 base), command_word EEFC_FCR_FCMD_EPA (Z.lor p 0x1))
      :: rest.
Proof.
  cbn [issue_page_erases]. unfold bind. intros H.
  destruct (sam3x_flash_cmd env fuel base EEFC_FCR_FCMD_EPA (Z.lor p 1) w)
    as [r1 w1] eqn:E.
  apply sam3x_flash_cmd_frame in E.
  destruct E as (rest & Ht & Hw & _).
  assert (Hext : exists evs, trace w' = trace w1 ++ evs).
  { destruct r1 as [x|].
    - destruct (x =? 0).
      + apply issue_page_erases_commands in H.
        destruct H as (k & evs & Ht' & _). eauto.
      + injection H as _ <-. exists []. rewrite app_nil_r. reflexivity.
    - injection H as _ <-. exists []. rewrite app_nil_r. reflexivity. }
  destruct Hext as (evs & Ht').
  rewrite Ht in Ht'. rewrite <- !app_assoc in Ht'.
  rewrite (new_events_app _ _ _ Ht').
  unfold writes32 in *. cbn [issue_events flat_map app].
  rewrite flat_map_app, Hw. cbn [app]. eauto.
Qed.

Lemma firstn_seq_le (k : nat) :
  forall a n : nat, (k <= n)%nat -> firstn k (seq a n) = seq a k.
Proof.
  induction k as [|k IH]; intros a n H; [reflexivity|].
  destruct n as [|n]; [lia|].
  cbn [seq firstn]. f_equal. apply IH. lia.
Qed.

Lemma lor_page_tag (m : Z) : Z.lor (8 * m) 1 = 8 * m + 1.
Proof.
  replace (8 * m) with (Z.shiftl m 3)
    by (rewrite Z.shiftl_mul_pow2 by lia; lia).
  rewrite lor_shiftl_low by lia.
  rewrite Z.shiftl_mul_pow2 by lia. reflexivity.
Qed.

(** An erase that starts on a block boundary of a probed page-erase
    region and stays inside the region issues, block after block, the
    page-erase command with argument [8 * block + 1]: the block number in
    bits 3 and up and the 8-page tag in the low bits, never truncated.
    A result of 0 means every block of the range was erased. *)
Theorem sam4_flash_erase_aligned (fuel : nat) (r : sam_flash) (i len : Z)
    (w : world) (res : option Z) (w' : world) :
  region_ok r -> f_erase (f r) = erase_sam4 ->
  0 <= i -> 0 <= len -> 4096 * i + len <= f_length (f r) ->
  (blocks_for len 4096 <= fuel)%nat ->
  flash_erase env fuel r (f_start (f r) + 4096 * i) len w = (res, w') ->
  exists k : nat,
    (k <= blocks_for len 4096)%nat /\
    writes32 (new_events w w') =
      map (fun j =>
             (EEFC_FCR (u32 (eefc_base r)),
              Z.lor (Z.lor (Z.shiftl 0x5A 24) EEFC_FCR_FCMD_EPA)
                    (Z.shiftl (8 * (i + Z.of_nat j) + 1) 8)))
          (seq 0 k) /\
    (res = Some 0 -> k = blocks_for len 4096).
Proof.
  intros Hok Hfn Hi Hlen Hin Hfuel H.
  destruct Hok as ((Hl0 & Hl1) & _ & _ & Hs0 & Hs1 & Hkind).
  assert (Hbs : f_blocksize (f r) = 4096).
  { destruct Hkind as [(Hc & _)|(_ & _ & _ & Hb)]; [congruence|exact Hb]. }
  assert (Hq : i + Z.of_nat (blocks_for len 4096) <= 512).
  { unfold blocks_for.
    pose proof (Z.mul_div_le (len + 4096 - 1) 4096 ltac:(lia)).
    assert (0 <= (len + 4096 - 1) / 4096) by (apply Z.div_pos; lia).
    lia. }
  unfold flash_erase in H. rewrite Hfn in H. unfold sam4_flash_erase in H.
  fold (erase_first_page r (f_start (f r) + 4096 * i)) in H.
  assert (Hfirst : erase_first_page r (f_start (f r) + 4096 * i) = 8 * i).
  { unfold erase_first_page, SAM4_PAGE_SIZE.
    replace (f_start (f r) + 4096 * i - f_start (f r)) with (4096 * i) by lia.
    rewrite u32_small by lia.
    replace (4096 * i) with (8 * i * 512) by lia.
    apply Z.div_mul. lia. }
  rewrite sam4_flash_erase_loop_pages in H
    by (rewrite ?Hbs, ?Hfirst; lia).
  rewrite Hbs, Hfirst in H.
  apply issue_page_erases_commands in H.
  destruct H as (k & evs & Ht & Hk & Hw & _ & _ & H0 & _).
  rewrite erase_pages_length in Hk, H0.
  exists k. split; [exact Hk|]. split; [|exact H0].
  rewrite (new_events_app _ _ _ Ht), Hw.
  unfold erase_pages. rewrite firstn_map, firstn_seq_le by exact Hk.
  rewrite map_map. apply map_ext_in. intros j Hj.
  apply in_seq in Hj. f_equal.
  unfold command_word.
  replace (8 * i + 8 * Z.of_nat j) with (8 * (i + Z.of_nat j)) by lia.
  rewrite (u32_small (8 * (i + Z.of_nat j))) by lia.
  rewrite lor_page_tag, u16_small by lia.
  reflexivity.
Qed.

(** An erase whose first page has bit 1 set -- an address that is not on
    a 4-page boundary of the region -- issues a first command whose low
    argument bits are 3 instead of the 8-page tag 1: or-ing the tag into
    the page number does not clear the bits under it. *)
Theorem sam4_flash_erase_unaligned_tag (fuel : nat) (r : sam_flash)
    (addr len : Z) (w : world) (res : option Z) (w' : world) :
  f_erase (f r) = erase_sam4 ->
  0 < f_blocksize (f r) -> 0 < len ->
  (blocks_for len (f_blocksize (f r)) <= fuel)%nat ->
  Z.testbit (erase_first_page r addr) 1 = true ->
  flash_erase env fuel r addr len w = (res, w') ->
  exists (word : Z) (rest : list (Z * Z)),
    writes32 (new_events w w') = (EEFC_FCR (u32 (eefc_base r)), word) :: rest /\
    Z.land (Z.shiftr word 8) 3 = 3.
Proof.
  intros Hfn Hbs Hlen Hfuel Hbit H.
  unfold flash_erase in H. rewrite Hfn in H. unfold sam4_flash_erase in H.
  fold (erase_first_page r addr) in H.
  rewrite sam4_flash_erase_loop_pages in H
    by (auto using erase_first_page_range; lia).
  rewrite blocks_for_step, erase_pages_step in H by lia.
  rewrite (u32_small _ (erase_first_page_range r addr)) in H.
  apply issue_page_erases_first in H. destruct H as (rest & H).
  eexists _, rest. split; [exact H|].
  unfold command_word.
  destruct (command_word_fields (u8 EEFC_FCR_FCMD_EPA)
              (u16 (Z.lor (erase_first_page r addr) 1))
              (u8_range _) (u16_range _)) as (_ & Hf & _).
  replace 3 with (Z.land 0xFFFF 3) at 1 by reflexivity.
  rewrite Z.land_assoc, Hf.
  apply Z.bits_inj'. intros n Hn.
  rewrite Z.land_spec. unfold u16.
  destruct (Z.eq_dec n 0) as [->|Hn0];
    [|destruct (Z.eq_dec n 1) as [->|Hn1]].
  - rewrite Z.mod_pow2_bits_low, Z.lor_spec by lia.
    cbn. rewrite Bool.orb_true_r. reflexivity.
  - rewrite Z.mod_pow2_bits_low, Z.lor_spec, Hbit by lia. reflexivity.
  - replace (Z.testbit 3 n) with false; [apply Bool.andb_false_r|].
    symmetry. change 3 with (Z.ones 2). apply Z.ones_spec_high. lia.
Qed.

End RegionFacts.

(** ** The commands behind the monitor commands *)

Section MonitorFacts.

Variable env : oracle.
Variable atol : string -> Z.

(** [gpnvm_get] issues one command, "get GPNVM bits" with argument 0, to
    the controller the session label selects, then reads the result
    register of that controller and prints the value it read: these are
    its last two events. *)
Theorem sam3x_cmd_gpnvm_get_reads_result (fuel : nat) (argc : Z)
    (argv : list string) (w : world) (b : bool) (w' : world) :
  sam3x_cmd_gpnvm_get env fuel argc argv w = (Some b, w') ->
  writes32 (new_events w w') =
    [(EEFC_FCR (u32 (sam3x_flash_base (tgt w))),
      Z.lor (Z.shiftl 0x5A 24) EEFC_FCR_FCMD_GGPB)] /\
  (exists (evs : list event) (v : Z),
     new_events w w' =
       evs ++ [ev_read32 (EEFC_FRR (sam3x_flash_base (tgt w))) v;
               ev_tc_printf ("GPNVM: 0x%08X" ++ LF) [v]]) /\
  tgt w' = tgt w.
Proof.
  rewrite sam3x_cmd_gpnvm_get_unfold. intros H.
  destruct (sam3x_flash_cmd env fuel (sam3x_flash_base (tgt w))
              EEFC_FCR_FCMD_GGPB 0 w) as [[r1|] w1] eqn:E; [|discriminate H].
  apply sam3x_flash_cmd_frame in E.
  destruct E as (rest & Ht & Hw & _ & Htg & _).
  injection H as _ <-.
  assert (Ht' : trace (gpnvm_shown env (sam3x_flash_base (tgt w)) w1) =
                trace w ++
                (issue_events (sam3x_flash_base (tgt w)) EEFC_FCR_FCMD_GGPB 0
                 ++ rest)
                ++ [ev_read32 (EEFC_FRR (sam3x_flash_base (tgt w)))
                      (u32 (mem32 env (reads w1)
                              (EEFC_FRR (sam3x_flash_base (tgt w)))));
                    ev_tc_printf ("GPNVM: 0x%08X" ++ LF)
                      [u32 (mem32 env (reads w1)
                              (EEFC_FRR (sam3x_flash_base (tgt w))))]]).
  { unfold gpnvm_shown. cbn [trace]. rewrite Ht, <- !app_assoc. reflexivity. }
  rewrite (new_events_app _ _ _ Ht').
  split; [|split; [eauto|exact Htg]].
  unfold writes32 in *. rewrite !flat_map_app, Hw. reflexivity.
Qed.

(** [gpnvm_set] called with two arguments issues two commands and nothing
    else: "set GPNVM bit" when the value argument is not zero and "clear
    GPNVM bit" when it is, with the bit argument reduced modulo 2^16,
    then the "get GPNVM bits" command of [gpnvm_get]. *)
Theorem sam3x_cmd_gpnvm_set_commands (fuel : nat) (argc : Z)
    (argv : list string) (w : world) (b : bool) (w' : world) :
  argc = 3 ->
  sam3x_cmd_gpnvm_set env atol fuel argc argv w = (Some b, w') ->
  writes32 (new_events w w') =
    [(EEFC_FCR (u32 (sam3x_flash_base (tgt w))),
      Z.lor (Z.lor (Z.shiftl 0x5A 24)
                   (if atol (nth 2 argv EmptyString) =? 0
                    then EEFC_FCR_FCMD_CGPB else EEFC_FCR_FCMD_SGPB))
            (Z.shiftl (atol (nth 1 argv EmptyString) mod 2 ^ 16) 8));
     (EEFC_FCR (u32 (sam3x_flash_base (tgt w))),
      Z.lor (Z.shiftl 0x5A 24) EEFC_FCR_FCMD_GGPB)] /\
  bulk_writes (new_events w w') = [] /\
  tgt w' = tgt w.
Proof.
  intros Hargc H.
  rewrite sam3x_cmd_gpnvm_set_unfold in H by exact Hargc.
  destruct (sam3x_flash_cmd env fuel (sam3x_flash_base (tgt w)) _ _ w)
    as [[r1|] w1] eqn:E1; [|discriminate H].
  destruct (sam3x_flash_cmd env fuel (sam3x_flash_base (tgt w))
              EEFC_FCR_FCMD_GGPB 0 w1) as [[r2|] w2] eqn:E2;
    [|discriminate H].
  apply sam3x_flash_cmd_frame in E1, E2.
  destruct E1 as (rest1 & Ht1 & Hw1 & Hb1 & Htg1 & _).
  destruct E2 as (rest2 & Ht2 & Hw2 & Hb2 & Htg2 & _).
  injection H as _ <-.
  match type of Ht1 with
  | _ = _ ++ issue_events _ ?c ?a ++ _ =>
      assert (Ht' : trace (gpnvm_shown env (sam3x_flash_base (tgt w)) w2) =
                    trace w ++
                    (issue_events (sam3x_flash_base (tgt w)) c a ++ rest1)
                    ++ (issue_events (sam3x_flash_base (tgt w))
                          EEFC_FCR_FCMD_GGPB 0 ++ rest2)
                    ++ [ev_read32 (EEFC_FRR (sam3x_flash_base (tgt w)))
                          (u32 (mem32 env (reads w2)
                                  (EEFC_FRR (sam3x_flash_base (tgt w)))));
                        ev_tc_printf ("GPNVM: 0x%08X" ++ LF)
                          [u32 (mem32 env (reads w2)
                                  (EEFC_FRR (sam3x_flash_base (tgt w))))]])
  end.
  { unfold gpnvm_shown. cbn [trace].
    rewrite Ht2, Ht1, <- !app_assoc. reflexivity. }
  rewrite (new_events_app _ _ _ Ht').
  split; [|split].
  - unfold writes32 in *. rewrite !flat_map_app, Hw1, Hw2.
    cbn [issue_events flat_map app]. unfold command_word.
    rewrite u16_u32.
    destruct (atol (nth 2 argv EmptyString) =? 0); reflexivity.
  - unfold bulk_writes in *. rewrite !flat_map_app, Hb1, Hb2. reflexivity.
  - unfold gpnvm_shown. cbn [tgt]. congruence.
Qed.

End MonitorFacts.

(** ** Worked examples of the further properties *)

Lemma bank_sam4_ok : region_ok bank_sam4.
Proof.
  unfold region_ok, bank_sam4, sam4_region.
  cbn [f f_start f_length f_blocksize f_buf_size f_erase eefc_base write_cmd].
  repeat split; try reflexivity; try (cbv; discriminate).
  right. repeat split; reflexivity.
Qed.

Lemma samx7x_probe_outcomes_witness :
  fst (samx7x_probe (env_probe CIDR_SAME70Q21 2 heap_fine) world0)
    = Some true /\
  sam3x_flash_base
    (tgt (snd (samx7x_probe (env_probe CIDR_SAME70Q21 2 heap_fine) world0)))
    = SAMX7X_EEFC_BASE.
Proof.
  pose proof (samx7x_probe_outcomes (env_probe CIDR_SAME70Q21 2 heap_fine)
                world0 eq_refl) as (_ & _ & H).
  change (heap_ok (env_probe CIDR_SAME70Q21 2 heap_fine) (S (allocs world0)))
    with true in H.
  destruct H as (H1 & _ & _ & H2). split; assumption.
Defined.

Lemma probed_regions_ok_witness : region_ok bank_sam3.
Proof.
  apply (probed_regions_ok (env_probe CIDR_SAM3X8E 0 heap_fine) world0
           bank_sam3).
  left. vm_compute. left. reflexivity.
Defined.

Lemma sam3x_flash_cmd_result_values_witness : In 2 [-1; 0; 2; 4; 6].
Proof.
  apply (sam3x_flash_cmd_result_values env_cmd_error 1 (SAM4S_EEFC_BASE 0)
           EEFC_FCR_FCMD_WP 1 world0 2
           (snd (sam3x_flash_cmd env_cmd_error 1 (SAM4S_EEFC_BASE 0)
                   EEFC_FCR_FCMD_WP 1 world0))).
  reflexivity.
Defined.

Lemma sam3x_flash_cmd_confined_witness :
  List.length
    (writes32
       (new_events world0
          (snd (sam3x_flash_cmd env_link_lost 5 (SAM4S_EEFC_BASE 0)
                  EEFC_FCR_FCMD_WP 1 world0)))) = 1%nat.
Proof.
  apply (sam3x_flash_cmd_confined env_link_lost 5 (SAM4S_EEFC_BASE 0)
           EEFC_FCR_FCMD_WP 1 world0
           (fst (sam3x_flash_cmd env_link_lost 5 (SAM4S_EEFC_BASE 0)
                   EEFC_FCR_FCMD_WP 1 world0))
           (snd (sam3x_flash_cmd env_link_lost 5 (SAM4S_EEFC_BASE 0)
                   EEFC_FCR_FCMD_WP 1 world0))).
  reflexivity.
Defined.

Lemma sam3x_flash_write_in_range_witness :
  writes32
    (new_events world0
       (snd (flash_write env_ready 1 bank_sam4 0x400200 [] 512 world0))) =
  [(EEFC_FCR (u32 (eefc_base bank_sam4)),
    Z.lor (Z.lor (Z.shiftl 0x5A 24) (write_cmd bank_sam4))
          (Z.shiftl ((0x400200 - f_start (f bank_sam4))
                     / f_buf_size (f bank_sam4)) 8))].
Proof.
  apply (sam3x_flash_write_in_range env_ready 1 bank_sam4 0x400200 [] 512
           world0
           (fst (flash_write env_ready 1 bank_sam4 0x400200 [] 512 world0))
           (snd (flash_write env_ready 1 bank_sam4 0x400200 [] 512 world0))
           bank_sam4_ok).
  - vm_compute. split; [discriminate|reflexivity].
  - reflexivity.
Defined.

Lemma sam4_flash_erase_aligned_witness :
  exists k : nat,
    (k <= blocks_for 0x2001 4096)%nat /\
    writes32
      (new_events world0
         (snd (flash_erase env_ready 5 bank_sam4
                 (f_start (f bank_sam4) + 4096 * 1) 0x2001 world0))) =
      map (fun j =>
             (EEFC_FCR (u32 (eefc_base bank_sam4)),
              Z.lor (Z.lor (Z.shiftl 0x5A 24) EEFC_FCR_FCMD_EPA)
                    (Z.shiftl (8 * (1 + Z.of_nat j) + 1) 8)))
          (seq 0 k) /\
    (fst (flash_erase env_ready 5 bank_sam4
            (f_start (f bank_sam4) + 4096 * 1) 0x2001 world0) = Some 0 ->
     k = blocks_for 0x2001 4096).
Proof.
  apply (sam4_flash_erase_aligned env_ready 5 bank_sam4 1 0x2001 world0
           (fst (flash_erase env_ready 5 bank_sam4
                   (f_start (f bank_sam4) + 4096 * 1) 0x2001 world0))
           (snd (flash_erase env_ready 5 bank_sam4
                   (f_start (f bank_sam4) + 4096 * 1) 0x2001 world0))
           bank_sam4_ok eq_refl).
  - lia.
  - lia.
  - vm_compute. discriminate.
  - vm_compute. lia.
  - reflexivity.
Defined.

Lemma sam4_flash_erase_unaligned_tag_witness :
  exists (word : Z) (rest : list (Z * Z)),
    writes32
      (new_events world0
         (snd (flash_erase env_ready 5 bank_sam4 0x400400 1 world0))) =
      (EEFC_FCR (u32 (eefc_base bank_sam4)), word) :: rest /\
    Z.land (Z.shiftr word 8) 3 = 3.
Proof.
  apply (sam4_flash_erase_unaligned_tag env_ready 5 bank_sam4 0x400400 1
           world0
           (fst (flash_erase env_ready 5 bank_sam4 0x400400 1 world0))
           (snd (flash_erase env_ready 5 bank_sam4 0x400400 1 world0))
           eq_refl).
  - reflexivity.
  - lia.
  - vm_compute. lia.
  - reflexivity.
  - reflexivity.
Defined.

Lemma sam3x_cmd_gpnvm_get_reads_result_witness :
  writes32
    (new_events world0
       (snd (sam3x_cmd_gpnvm_get env_cmd_error 1 1 ["gpnvm_get"]%string
               world0))) =
  [(EEFC_FCR (u32 (sam3x_flash_base (tgt world0))),
    Z.lor (Z.shiftl 0x5A 24) EEFC_FCR_FCMD_GGPB)].
Proof.
  apply (sam3x_cmd_gpnvm_get_reads_result env_cmd_error 1 1
           ["gpnvm_get"]%string world0 true
           (snd (sam3x_cmd_gpnvm_get env_cmd_error 1 1 ["gpnvm_get"]%string
                   world0))).
  reflexivity.
Defined.

Lemma sam3x_cmd_gpnvm_set_commands_witness :
  bulk_writes
    (new_events world0
       (snd (sam3x_cmd_gpnvm_set env_cmd_error atol_digit 1 3
               ["gpnvm_set"; "1"; "1"]%string world0))) = [].
Proof.
  apply (sam3x_cmd_gpnvm_set_commands env_cmd_error atol_digit 1 3
           ["gpnvm_set"; "1"; "1"]%string world0 true
           (snd (sam3x_cmd_gpnvm_set env_cmd_error atol_digit 1 3
                   ["gpnvm_set"; "1"; "1"]%string world0))
           eq_refl).
  reflexivity.
Defined.
